(** * ReasonPy: the two code-execution tools of the agent

    A shallow embedding of [src/agent/e2b_graph.py] (the remote sandbox
    wrapper [E2BCodeInterpreter] and the tools [install_and_run_python],
    [cleanup_sandbox]) and of [src/agent/graph.py] (the local tool
    [run_python]), followed by the properties stated about them.

    Python strings are [string] (bytes, as the sources only handle ASCII
    literals), result dictionaries are [gmap string pyval], and the code that
    talks to the outside (the E2B service, the local REPL, the filesystem) is
    written in a state-and-exception monad over an abstract world. *)

From Stdlib Require Import String Ascii List Bool Arith Lia.
From stdpp Require Import base option list strings gmap.

Local Open Scope string_scope.

(** ** Python string primitives used by the sources *)

Module Py.

(** The one-character string "\n". *)
Definition nl : string := String (ascii_of_nat 10) EmptyString.

(** [s.startswith(p)]. *)
Fixpoint startswith (s p : string) {struct p} : bool :=
  match p with
  | EmptyString => true
  | String a p' =>
      match s with
      | EmptyString => false
      | String b s' => Ascii.eqb a b && startswith s' p'
      end
  end.

(** [sub in s]: [sub] occurs in [s] at some offset. *)
Fixpoint contains (sub s : string) : bool :=
  startswith s sub ||
  match s with
  | EmptyString => false
  | String _ s' => contains sub s'
  end.

(** The scan of [str.replace] for a non-empty [old]: left to right, each
    match is replaced and the scan resumes after it; [skip] counts the
    characters of the current match that are still to be dropped. *)
Fixpoint replace_scan (old new s : string) (skip : nat) : string :=
  match s with
  | EmptyString => EmptyString
  | String c s' =>
      match skip with
      | S k => replace_scan old new s' k
      | O =>
          if startswith s old
          then new ++ replace_scan old new s' (String.length old - 1)
          else String c (replace_scan old new s' 0)
      end
  end.

(** With an empty [old], Python inserts [new] before every character and
    at the end. *)
Fixpoint replace_empty (new s : string) : string :=
  match s with
  | EmptyString => new
  | String c s' => new ++ String c (replace_empty new s')
  end.

(** [s.replace(old, new)]. *)
Definition replace (s old new : string) : string :=
  match old with
  | EmptyString => replace_empty new s
  | String _ _ => replace_scan old new s 0
  end.

(** [c.lower()] on one ASCII character. *)
Definition lower_ascii (c : ascii) : ascii :=
  let n := nat_of_ascii c in
  if (65 <=? n)%nat && (n <=? 90)%nat then ascii_of_nat (n + 32) else c.

(** [s.lower()]. *)
Fixpoint lower (s : string) : string :=
  match s with
  | EmptyString => EmptyString
  | String c s' => String (lower_ascii c) (lower s')
  end.

(** [sep.join(parts)]. *)
Fixpoint join (sep : string) (parts : list string) : string :=
  match parts with
  | [] => EmptyString
  | [p] => p
  | p :: rest => p ++ sep ++ join sep rest
  end.

(** An instance of a class defined outside the repository, seen only
    through [bool(o)] and [str(o)]. *)
Record object := Object { obj_bool : bool; obj_str : string }.

(** The Python values that flow through the result dictionaries. *)
Inductive pyval :=
| PyNone
| PyBool (b : bool)
| PyStr (s : string)
| PyObject (o : object).

(** Truth value of a Python value, as tested by [if], [and], [not]. *)
Definition truthy (v : pyval) : bool :=
  match v with
  | PyNone => false
  | PyBool b => b
  | PyStr s => negb (String.eqb s EmptyString)
  | PyObject o => obj_bool o
  end.

(** [str(v)], which is also what an f-string field renders. *)
Definition str (v : pyval) : string :=
  match v with
  | PyNone => "None"
  | PyBool true => "True"
  | PyBool false => "False"
  | PyStr s => s
  | PyObject o => obj_str o
  end.

End Py.

Import Py.

(** ** The outside world and the monad of the tools *)

(** A Python exception (an instance of [Exception]); [exc_str e] is [str(e)]. *)
Inductive Exception := Exc (message : string).

Definition exc_str (e : Exception) : string :=
  match e with Exc m => m end.

(** Everything Python can raise: an instance of [Exception], or an instance
    of another class under [BaseException] ([SystemExit],
    [KeyboardInterrupt], [GeneratorExit]), which [except Exception] does not
    catch. *)
Inductive BaseException :=
| Ordinary (e : Exception)
| NonException (class_name message : string).

(** What a call that may raise produces; [E] is what it may raise. *)
Inductive Outcome (E A : Type) :=
| Return (a : A)
| Raise (e : E).
Arguments Return {E A} a.
Arguments Raise {E A} e.

(** An outcome that raises instances of [Exception], seen among all that can
    be raised. *)
Definition raised {A} (r : Outcome Exception A) : Outcome BaseException A :=
  match r with
  | Return a => Return a
  | Raise e => Raise (Ordinary e)
  end.

(** The calls that leave the process, in the order they are made. *)
Inductive Event :=
| EvSandboxCreate (api_key : option string)   (* Sandbox(api_key=...) *)
| EvAtexitRegisterClose                (* atexit.register(self.close) *)
| EvCommandsRun (cmd : string)         (* self.sandbox.commands.run(cmd) *)
| EvRunCode (code : string)            (* self.sandbox.run_code(code) *)
| EvSandboxClose                       (* self.sandbox.close() *)
| EvMakedirs (path : string)           (* os.makedirs(path, exist_ok=True) *)
| EvReplRun (code : string)            (* python_repl.run(code) *)
| EvPrint (line : string).             (* print(line) *)

(** The collaborators that are not part of the repository: the process
    environment, the E2B SDK, the filesystem and the LangChain REPL.  Each
    call may change the world and may raise.  The calls to the E2B SDK and
    to the filesystem raise instances of [Exception]; the REPL executes the
    code it is given inside the process, so that whatever this code raises
    ([SystemExit] on [sys.exit()], for one) comes out of it. *)
Class Externals := {
  World : Type;
  Sandbox : Type;
  CommandResult : Type;
  Execution : Type;
  os_getenv : string -> World -> option string;
  Sandbox_create : option string -> World -> Outcome Exception Sandbox * World;
  commands_run :
    Sandbox -> string -> World -> Outcome Exception CommandResult * World;
  run_code : Sandbox -> string -> World -> Outcome Exception Execution * World;
  sandbox_close : Sandbox -> World -> Outcome Exception unit * World;
  os_makedirs : string -> World -> Outcome Exception unit * World;
  python_repl_run : string -> World -> Outcome BaseException string * World;
  result_stdout : CommandResult -> pyval;   (* install_result.stdout *)
  execution_text : Execution -> pyval;      (* execution.text *)
  execution_error : Execution -> pyval      (* execution.error *)
}.

(** The attributes of an [E2BCodeInterpreter] instance. *)
Record E2BCodeInterpreter `{Externals} := {
  api_key : option string;
  sandbox : option Sandbox
}.

(** Process state: the world, the calls made so far and the module-level
    singleton [code_interpreter]. *)
Record State `{Externals} := {
  world : World;
  trace : list Event;
  code_interpreter : E2BCodeInterpreter
}.

(** A result dictionary. *)
Abbreviation dict := (gmap string pyval).

Section Monad.
Context `{Externals}.

Definition M (A : Type) : Type := State -> Outcome BaseException A * State.

Definition ret {A} (a : A) : M A := fun st => (Return a, st).

Definition bind {A B} (m : M A) (k : A -> M B) : M B :=
  fun st =>
    match m st with
    | (Return a, st') => k a st'
    | (Raise e, st') => (Raise e, st')
    end.

(** [try: body except Exception as e: handler e]: what is raised and is not
    an instance of [Exception] goes on to the caller. *)
Definition try_except {A} (body : M A) (handler : Exception -> M A) : M A :=
  fun st =>
    match body st with
    | (Return a, st') => (Return a, st')
    | (Raise (Ordinary e), st') => handler e st'
    | (Raise (NonException class_name message), st') =>
        (Raise (NonException class_name message), st')
    end.

(** A call to a collaborator: recorded in the trace, then performed. *)
Definition extern {A} (ev : Event) (f : World -> Outcome Exception A * World) : M A :=
  fun st =>
    let '(r, w) := f (world st) in
    (raised r, {| world := w; trace := (trace st ++ [ev])%list;
                  code_interpreter := code_interpreter st |}).

(** A call to a collaborator that runs code inside the process. *)
Definition extern_in_process {A} (ev : Event)
    (f : World -> Outcome BaseException A * World) : M A :=
  fun st =>
    let '(r, w) := f (world st) in
    (r, {| world := w; trace := (trace st ++ [ev])%list;
           code_interpreter := code_interpreter st |}).

Definition print (line : string) : M unit :=
  fun st =>
    (Return tt, {| world := world st; trace := (trace st ++ [EvPrint line])%list;
                   code_interpreter := code_interpreter st |}).

Definition getenv (name : string) : M (option string) :=
  fun st => (Return (os_getenv name (world st)), st).

Definition get_self : M E2BCodeInterpreter :=
  fun st => (Return (code_interpreter st), st).

Definition set_self (self : E2BCodeInterpreter) : M unit :=
  fun st =>
    (Return tt, {| world := world st; trace := trace st; code_interpreter := self |}).

End Monad.

Declare Scope py_scope.
Delimit Scope py_scope with py.
Notation "x <- m ;; k" := (bind m (fun x => k))
  (at level 100, m at next level, right associativity) : py_scope.
Notation "m ;;; k" := (bind m (fun _ => k))
  (at level 100, right associativity) : py_scope.
Local Open Scope py_scope.

(** ** [src/agent/e2b_graph.py] *)

Section E2B.
Context `{Externals}.

(** Truth value of an [Optional[str]]. *)
Definition truthy_opt (o : option string) : bool :=
  match o with
  | None => false
  | Some s => truthy (PyStr s)
  end.

(** [E2BCodeInterpreter.__init__]. *)
Definition init : M unit :=
  key <- getenv "E2B_API_KEY" ;;
  if negb (truthy_opt key) then
    print "WARNING: E2B_API_KEY environment variable not found. E2B sandbox will not work." ;;;
    print "Please sign up at https://e2b.dev and set your API key." ;;;
    set_self {| api_key := key; sandbox := None |}
  else
    try_except
      (sb <- extern (EvSandboxCreate key) (Sandbox_create key) ;;
       set_self {| api_key := key; sandbox := Some sb |} ;;;
       print "Created E2B sandbox" ;;;
       extern EvAtexitRegisterClose (fun w => (Return tt, w)))
      (fun e =>
         print ("Error creating E2B sandbox: " ++ exc_str e) ;;;
         set_self {| api_key := key; sandbox := None |}).

(** The record returned when there is no sandbox. *)
Definition not_initialized : dict :=
  <["error" := PyStr "E2B sandbox not initialized. Check your API key."]>
  (<["stdout" := PyStr ""]>
  (<["stderr" := PyStr ""]>
  (<["success" := PyBool false]> ∅))).

(** What an f-string field renders for an [Optional[str]]. *)
Definition str_opt (o : option string) : string :=
  match o with
  | None => str PyNone
  | Some s => s
  end.

(** [package_name and package_name.lower() != "none"]. *)
Definition install_requested (package_name : option string) : bool :=
  match package_name with
  | None => false
  | Some p => truthy (PyStr p) && negb (String.eqb (lower p) "none")
  end.

(** Lines 73-78 of [execute_code]: the record of a completed remote run. *)
Definition completed_record (package_name : option string)
    (install_output : pyval) (execution : Execution) : dict :=
  <["stdout" := execution_text execution]>
  (<["install_output" :=
       if install_requested package_name then install_output else PyStr ""]>
  (<["error" :=
       if truthy (execution_error execution)
       then execution_error execution else PyStr ""]>
  (<["success" := PyBool (negb (truthy (execution_error execution)))]> ∅))).

(** [f"pip install {package_name}"]. *)
Definition install_command (package_name : option string) : string :=
  "pip install " ++ str_opt package_name.

(** Lines 63-72 of [execute_code]: the body of the [try], up to the record. *)
Definition execute_code_try (sb : Sandbox) (code : string)
    (package_name : option string) : M dict :=
  install_output <-
    (if install_requested package_name then
       install_result <-
         extern (EvCommandsRun (install_command package_name))
                (commands_run sb (install_command package_name)) ;;
       ret (result_stdout install_result)
     else ret (PyStr "")) ;;
  execution <- extern (EvRunCode code) (run_code sb code) ;;
  ret (completed_record package_name install_output execution).

(** Lines 80-85 of [execute_code]: the record built by the [except] clause. *)
Definition exception_record (e : Exception) : dict :=
  <["error" := PyStr (exc_str e)]>
  (<["stdout" := PyStr ""]>
  (<["stderr" := PyStr (exc_str e)]>
  (<["success" := PyBool false]> ∅))).

(** [E2BCodeInterpreter.execute_code]. *)
Definition execute_code (code : string) (package_name : option string) : M dict :=
  self <- get_self ;;
  match sandbox self with
  | None => ret not_initialized
  | Some sb =>
      try_except (execute_code_try sb code package_name)
                 (fun e => ret (exception_record e))
  end.

(** [E2BCodeInterpreter.close]. *)
Definition close : M unit :=
  self <- get_self ;;
  match sandbox self with
  | None => ret tt
  | Some sb =>
      try_except
        (extern EvSandboxClose (sandbox_close sb) ;;;
         print "Closed E2B sandbox")
        (fun e => print ("Error closing E2B sandbox: " ++ exc_str e))
  end.

(** One step of the formatting: [if result.get(key): output_parts.append(f"{title}\n{result[key]}")]. *)
Definition append_section (result : dict) (key title : string)
    (output_parts : list string) : list string :=
  match result !! key with
  | Some v =>
      if truthy v then app output_parts [title ++ nl ++ str v]
      else output_parts
  | None => output_parts
  end.

(** The formatting done by [install_and_run_python] on the record. *)
Definition format_result (result : dict) : string :=
  let output_parts := [] in
  let output_parts :=
    append_section result "install_output" "Package installation output:" output_parts in
  let output_parts :=
    append_section result "stdout" "Code execution output:" output_parts in
  let output_parts :=
    append_section result "error" "Error:" output_parts in
  join (nl ++ nl) output_parts.

(** The tool [install_and_run_python]. *)
Definition install_and_run_python (package_name code : string) : M string :=
  result <- execute_code code (Some package_name) ;;
  ret (format_result result).

(** The tool [cleanup_sandbox]. *)
Definition cleanup_sandbox : M string :=
  try_except
    (close ;;;
     ret "E2B sandbox has been successfully cleaned up and resources released.")
    (fun e => ret ("Error during sandbox cleanup: " ++ exc_str e)).

End E2B.

(** ** [src/agent/graph.py] *)

Section LocalRepl.
Context `{Externals}.

Definition artifacts_dir : string := "./src/agent/artifacts".

(** [f"{artifacts_dir}/figure.png"]. *)
Definition plot_path : string := artifacts_dir ++ "/figure.png".

(** [f"plt.savefig('{plot_path}')\nprint('Figure saved to {plot_path}')"]. *)
Definition save_and_report : string :=
  "plt.savefig('" ++ plot_path ++ "')" ++ nl ++
  "print('Figure saved to " ++ plot_path ++ "')".

(** The guard of line 43: the code mentions a matplotlib import. *)
Definition mentions_matplotlib (code : string) : bool :=
  contains "import matplotlib" code || contains "import plt" code
  || contains "from matplotlib" code.

(** Lines 43-53 of [run_python]: the code that is handed to the REPL. *)
Definition rewrite_plotting (code : string) : string :=
  if mentions_matplotlib code then
    if contains "plt.show()" code then
      replace code "plt.show()" save_and_report
    else if contains "plt" code && negb (contains "savefig" code) then
      code ++ nl ++ save_and_report
    else code
  else code.

(** The tool [run_python]. *)
Definition run_python (code : string) : M string :=
  try_except
    (extern (EvMakedirs artifacts_dir) (os_makedirs artifacts_dir) ;;;
     result <- extern_in_process (EvReplRun (rewrite_plotting code))
                                 (python_repl_run (rewrite_plotting code)) ;;
     ret result)
    (fun e => ret ("Error: " ++ exc_str e)).

End LocalRepl.

(** ** A scripted world, to run the tools on concrete inputs *)

Module Scripted.

(** What the collaborators answer; [Some m] in a [_raises] field makes the
    call raise an exception whose message is [m], and [Some c] in
    [repl_exits] makes the code given to the REPL call [sys.exit(c)]. *)
Record Script := {
  env_key : option string;
  create_raises : option string;
  install_raises : option string;
  install_stdout : pyval;
  run_raises : option string;
  run_text : pyval;
  run_error : pyval;
  close_raises : option string;
  makedirs_raises : option string;
  repl_raises : option string;
  repl_exits : option string;
  repl_output : string
}.

(** The world counts the calls it has answered. *)
Definition answer {A} (raises : option string) (a : A) (w : nat) :
    Outcome Exception A * nat :=
  (match raises with Some m => Raise (Exc m) | None => Return a end, S w).

(** The answer of the REPL, which also lets a [SystemExit] through. *)
Definition answer_in_process {A} (exits raises : option string) (a : A) (w : nat) :
    Outcome BaseException A * nat :=
  match exits with
  | Some c => (Raise (NonException "SystemExit" c), S w)
  | None => (raised (fst (answer raises a w)), S w)
  end.

Definition externals (sc : Script) : Externals := {|
  World := nat;
  Sandbox := unit;
  CommandResult := pyval;
  Execution := pyval * pyval;
  os_getenv := fun name _ =>
    if String.eqb name "E2B_API_KEY" then env_key sc else None;
  Sandbox_create := fun _ => answer (create_raises sc) tt;
  commands_run := fun _ _ => answer (install_raises sc) (install_stdout sc);
  run_code := fun _ _ => answer (run_raises sc) (run_text sc, run_error sc);
  sandbox_close := fun _ => answer (close_raises sc) tt;
  os_makedirs := fun _ => answer (makedirs_raises sc) tt;
  python_repl_run := fun _ =>
    answer_in_process (repl_exits sc) (repl_raises sc) (repl_output sc);
  result_stdout := fun r => r;
  execution_text := fst;
  execution_error := snd
|}.

(** A world where every call succeeds and the code prints [42]. *)
Definition all_good : Script := {|
  env_key := Some "e2b_key";
  create_raises := None;
  install_raises := None;
  install_stdout := PyStr "Successfully installed pandas";
  run_raises := None;
  run_text := PyStr "42";
  run_error := PyNone;
  close_raises := None;
  makedirs_raises := None;
  repl_raises := None;
  repl_exits := None;
  repl_output := "42"
|}.

(** The same world without the sandbox credential. *)
Definition no_key : Script := {|
  env_key := None;
  create_raises := None;
  install_raises := None;
  install_stdout := PyStr "Successfully installed pandas";
  run_raises := None;
  run_text := PyStr "42";
  run_error := PyNone;
  close_raises := None;
  makedirs_raises := None;
  repl_raises := None;
  repl_exits := None;
  repl_output := "42"
|}.

(** A world where [pip install] raises. *)
Definition install_fails : Script := {|
  env_key := Some "e2b_key";
  create_raises := None;
  install_raises := Some "Command exited with code 1";
  install_stdout := PyStr "";
  run_raises := None;
  run_text := PyStr "42";
  run_error := PyNone;
  close_raises := None;
  makedirs_raises := None;
  repl_raises := None;
  repl_exits := None;
  repl_output := "42"
|}.

(** A world where running code and closing the sandbox raise. *)
Definition remote_down : Script := {|
  env_key := Some "e2b_key";
  create_raises := None;
  install_raises := None;
  install_stdout := PyStr "";
  run_raises := Some "connection reset";
  run_text := PyNone;
  run_error := PyNone;
  close_raises := Some "sandbox not found";
  makedirs_raises := None;
  repl_raises := Some "timed out";
  repl_exits := None;
  repl_output := ""
|}.

(** A world where the creation of the sandbox raises. *)
Definition create_fails : Script := {|
  env_key := Some "e2b_key";
  create_raises := Some "401 Unauthorized";
  install_raises := None;
  install_stdout := PyStr "";
  run_raises := None;
  run_text := PyNone;
  run_error := PyNone;
  close_raises := None;
  makedirs_raises := None;
  repl_raises := None;
  repl_exits := None;
  repl_output := ""
|}.

(** A world where the directory of the figures cannot be created. *)
Definition read_only_disk : Script := {|
  env_key := Some "e2b_key";
  create_raises := None;
  install_raises := None;
  install_stdout := PyStr "";
  run_raises := None;
  run_text := PyNone;
  run_error := PyNone;
  close_raises := None;
  makedirs_raises := Some "[Errno 30] Read-only file system";
  repl_raises := None;
  repl_exits := None;
  repl_output := "42"
|}.

(** A world where the code given to the REPL calls [sys.exit(3)]. *)
Definition code_exits : Script := {|
  env_key := Some "e2b_key";
  create_raises := None;
  install_raises := None;
  install_stdout := PyStr "";
  run_raises := None;
  run_text := PyNone;
  run_error := PyNone;
  close_raises := None;
  makedirs_raises := None;
  repl_raises := None;
  repl_exits := Some "3";
  repl_output := ""
|}.

(** The process before the module [e2b_graph] is imported. *)
Definition boot (sc : Script) : @State (externals sc) :=
  @Build_State (externals sc) 0 []
    (@Build_E2BCodeInterpreter (externals sc) None None).

(** The process once [code_interpreter = E2BCodeInterpreter()] has run. *)
Definition started (sc : Script) : @State (externals sc) :=
  snd (@init (externals sc) (boot sc)).

End Scripted.

(** ** Vocabulary of the specification *)

(** The fields every result record carries. *)
Definition common_fields : gset string := {[ "stdout"; "error"; "success" ]}.

(** The fields a result record may carry at all. *)
Definition known_fields : gset string :=
  {[ "stdout"; "install_output"; "error"; "success"; "stderr" ]}.

(** The four fields the data model of the specification lists. *)
Definition specified_fields : gset string :=
  {[ "stdout"; "install_output"; "error"; "success" ]}.

(** A field of a record is non-empty: present and true as a Python value
    (neither [None] nor the empty string). *)
Definition non_empty (result : dict) (key : string) : bool :=
  match result !! key with
  | Some v => truthy v
  | None => false
  end.

(** One section of the formatted output: its title, a newline and the
    field's text, when the field is non-empty. *)
Definition section_of (result : dict) (key title : string) : list string :=
  if non_empty result key
  then [title ++ nl ++ str (default PyNone (result !! key))]
  else [].

(** The text the specification describes for a record: the three sections,
    in order, separated by blank lines. *)
Definition formatted (result : dict) : string :=
  join (nl ++ nl)
    (section_of result "install_output" "Package installation output:" ++
     section_of result "stdout" "Code execution output:" ++
     section_of result "error" "Error:")%list.

(** The state once further calls [evs] have left the world as [w]. *)
Definition after `{Externals} (st : State) (w : World) (evs : list Event) : State :=
  {| world := w; trace := (trace st ++ evs)%list;
     code_interpreter := code_interpreter st |}.

(** The runs of the [try] body of [execute_code], by what the remote calls
    answer: the outcome of the body and the state it leaves.  The calls made
    are the ones [after] appends. *)
Inductive try_run `{Externals} (st : State) (sb : Sandbox) (code : string)
    (package_name : option string) : Outcome Exception dict -> State -> Prop :=
| InstallRaises e w :
    install_requested package_name = true ->
    commands_run sb (install_command package_name) (world st) = (Raise e, w) ->
    try_run st sb code package_name (Raise e)
      (after st w [EvCommandsRun (install_command package_name)])
| InstallThenRunRaises ir w1 e w2 :
    install_requested package_name = true ->
    commands_run sb (install_command package_name) (world st) = (Return ir, w1) ->
    run_code sb code w1 = (Raise e, w2) ->
    try_run st sb code package_name (Raise e)
      (after st w2 [EvCommandsRun (install_command package_name); EvRunCode code])
| InstallThenRunReturns ir w1 ex w2 :
    install_requested package_name = true ->
    commands_run sb (install_command package_name) (world st) = (Return ir, w1) ->
    run_code sb code w1 = (Return ex, w2) ->
    try_run st sb code package_name
      (Return (completed_record package_name (result_stdout ir) ex))
      (after st w2 [EvCommandsRun (install_command package_name); EvRunCode code])
| RunRaises e w :
    install_requested package_name = false ->
    run_code sb code (world st) = (Raise e, w) ->
    try_run st sb code package_name (Raise e) (after st w [EvRunCode code])
| RunReturns ex w :
    install_requested package_name = false ->
    run_code sb code (world st) = (Return ex, w) ->
    try_run st sb code package_name
      (Return (completed_record package_name (PyStr "") ex))
      (after st w [EvRunCode code]).

(** The runs of the [try] body of [run_python], by what the filesystem and
    the REPL answer. *)
Inductive local_run `{Externals} (st : State) (code : string) :
    Outcome BaseException string -> State -> Prop :=
| MakedirsRaises e w :
    os_makedirs artifacts_dir (world st) = (Raise e, w) ->
    local_run st code (Raise (Ordinary e)) (after st w [EvMakedirs artifacts_dir])
| ReplRaises w1 e w2 :
    os_makedirs artifacts_dir (world st) = (Return tt, w1) ->
    python_repl_run (rewrite_plotting code) w1 = (Raise e, w2) ->
    local_run st code (Raise e)
      (after st w2 [EvMakedirs artifacts_dir; EvReplRun (rewrite_plotting code)])
| ReplReturns w1 result w2 :
    os_makedirs artifacts_dir (world st) = (Return tt, w1) ->
    python_repl_run (rewrite_plotting code) w1 = (Return result, w2) ->
    local_run st code (Return result)
      (after st w2 [EvMakedirs artifacts_dir; EvReplRun (rewrite_plotting code)]).

(** What [run_python] makes of the outcome of its [try] body: an instance of
    [Exception] becomes the returned text, anything else stays as it is. *)
Definition answer_of_run (o : Outcome BaseException string) :
    Outcome BaseException string :=
  match o with
  | Return result => Return result
  | Raise (Ordinary e) => Return ("Error: " ++ exc_str e)
  | Raise (NonException class_name message) =>
      Raise (NonException class_name message)
  end.

(** The remote calls a run of [execute_code] may add to the trace, for a
    given install command and code: each call at most once, the install
    first. *)
Definition single_attempt (cmd code : string) (evs : list Event) : Prop :=
  evs = [EvCommandsRun cmd] \/ evs = [EvRunCode code]
  \/ evs = [EvCommandsRun cmd; EvRunCode code].

(** The strings handed to the local REPL in a trace. *)
Fixpoint executed (evs : list Event) : list string :=
  match evs with
  | [] => []
  | EvReplRun code :: evs' => code :: executed evs'
  | _ :: evs' => executed evs'
  end.

(** The codes sent to the sandbox for execution in a trace. *)
Fixpoint codes_run (evs : list Event) : list string :=
  match evs with
  | [] => []
  | EvRunCode code :: evs' => code :: codes_run evs'
  | _ :: evs' => codes_run evs'
  end.

(** Kinds of calls, to count them in a trace. *)
Definition is_create (ev : Event) : bool :=
  match ev with EvSandboxCreate _ => true | _ => false end.

Definition is_register (ev : Event) : bool :=
  match ev with EvAtexitRegisterClose => true | _ => false end.

Definition is_close (ev : Event) : bool :=
  match ev with EvSandboxClose => true | _ => false end.

Definition is_makedirs (ev : Event) : bool :=
  match ev with EvMakedirs _ => true | _ => false end.

(** How many calls of a kind a trace holds. *)
Fixpoint count_events (kind : Event -> bool) (evs : list Event) : nat :=
  match evs with
  | [] => 0
  | ev :: evs' => (if kind ev then 1 else 0) + count_events kind evs'
  end.


Example replace_ex1 : replace "a.b.c" "." "--" = "a--b--c".
Proof. reflexivity. Qed.

Example replace_ex2 : replace "aaa" "aa" "b" = "ba".
Proof. reflexivity. Qed.

Example replace_ex3 : replace "abc" "" "-" = "-a-b-c-".
Proof. reflexivity. Qed.

Example lower_ex : lower "NoNe" = "none".
Proof. reflexivity. Qed.

Example join_ex : join ", " ["a"; "b"; "c"] = "a, b, c".
Proof. reflexivity. Qed.

Example contains_ex : contains "lt.s" "plt.show()" = true /\ contains "x" "plt" = false.
Proof. split; reflexivity. Qed.

Example save_and_report_ex :
  save_and_report =
  "plt.savefig('./src/agent/artifacts/figure.png')" ++ nl ++
  "print('Figure saved to ./src/agent/artifacts/figure.png')".
Proof. reflexivity. Qed.

Example started_all_good :
  @sandbox _ (@code_interpreter _ (Scripted.started Scripted.all_good)) = Some tt
  /\ @trace _ (Scripted.started Scripted.all_good) =
     [EvSandboxCreate (Some "e2b_key"); EvPrint "Created E2B sandbox"; EvAtexitRegisterClose].
Proof. split; reflexivity. Qed.

Example started_no_key :
  @sandbox _ (@code_interpreter _ (Scripted.started Scripted.no_key)) = None.
Proof. reflexivity. Qed.

Example run_all_good :
  fst (@install_and_run_python (Scripted.externals Scripted.all_good) "pandas" "print(42)"
         (Scripted.started Scripted.all_good)) =
  Return ("Package installation output:" ++ nl ++ "Successfully installed pandas" ++ nl ++ nl ++
          "Code execution output:" ++ nl ++ "42").
Proof. reflexivity. Qed.

(** Closed goals about sets of field names are decided by computation. *)
Ltac decide_fields := apply (bool_decide_unpack _); vm_compute; exact I.

(** ** Runs of the tools, call by call *)

Section Runs.
Context `{Externals}.
Implicit Types (st : State) (sb : Sandbox) (code : string)
  (package_name : option string) (e : Exception).

Lemma after_nil st : after st (world st) [] = st.
Proof. destruct st. unfold after. simpl. rewrite app_nil_r. reflexivity. Qed.

Lemma after_after st w1 evs1 w2 evs2 :
  after (after st w1 evs1) w2 evs2 = after st w2 (evs1 ++ evs2)%list.
Proof. unfold after. simpl. rewrite app_assoc. reflexivity. Qed.

Lemma extern_after {A} (ev : Event) (f : World -> Outcome Exception A * World) st :
  extern ev f st = (raised (fst (f (world st))), after st (snd (f (world st))) [ev]).
Proof. unfold extern, after. destruct (f (world st)). reflexivity. Qed.

Lemma execute_code_no_sandbox st code package_name :
  sandbox (code_interpreter st) = None ->
  execute_code code package_name st = (Return not_initialized, st).
Proof.
  intros Hnone. unfold execute_code, bind, get_self, ret.
  rewrite Hnone. reflexivity.
Qed.

Lemma execute_code_with_sandbox st sb code package_name :
  sandbox (code_interpreter st) = Some sb ->
  execute_code code package_name st =
  try_except (execute_code_try sb code package_name)
             (fun e => ret (exception_record e)) st.
Proof.
  intros Hsome. unfold execute_code, bind, get_self.
  rewrite Hsome. reflexivity.
Qed.

(** The install call raises: the [try] body stops there. *)
Lemma try_install_raises st sb code package_name e w :
  install_requested package_name = true ->
  commands_run sb (install_command package_name) (world st) = (Raise e, w) ->
  execute_code_try sb code package_name st =
  (Raise (Ordinary e), after st w [EvCommandsRun (install_command package_name)]).
Proof.
  intros Hreq Hrun. unfold execute_code_try, bind, extern. rewrite Hreq, Hrun.
  reflexivity.
Qed.

(** The install call returns and the execution raises. *)
Lemma try_install_then_run_raises st sb code package_name ir w1 e w2 :
  install_requested package_name = true ->
  commands_run sb (install_command package_name) (world st) = (Return ir, w1) ->
  run_code sb code w1 = (Raise e, w2) ->
  execute_code_try sb code package_name st =
  (Raise (Ordinary e),
   after st w2 [EvCommandsRun (install_command package_name); EvRunCode code]).
Proof.
  intros Hreq Hinst Hrun. unfold execute_code_try, bind, ret, extern.
  rewrite Hreq, Hinst. simpl. rewrite Hrun. unfold after. simpl.
  rewrite <- app_assoc. reflexivity.
Qed.

(** Both calls return. *)
Lemma try_install_then_run_returns st sb code package_name ir w1 ex w2 :
  install_requested package_name = true ->
  commands_run sb (install_command package_name) (world st) = (Return ir, w1) ->
  run_code sb code w1 = (Return ex, w2) ->
  execute_code_try sb code package_name st =
  (Return (completed_record package_name (result_stdout ir) ex),
   after st w2 [EvCommandsRun (install_command package_name); EvRunCode code]).
Proof.
  intros Hreq Hinst Hrun. unfold execute_code_try, bind, ret, extern.
  rewrite Hreq, Hinst. simpl. rewrite Hrun. unfold after. simpl.
  rewrite <- app_assoc. reflexivity.
Qed.

(** No install is requested and the execution raises. *)
Lemma try_run_raises st sb code package_name e w :
  install_requested package_name = false ->
  run_code sb code (world st) = (Raise e, w) ->
  execute_code_try sb code package_name st
  = (Raise (Ordinary e), after st w [EvRunCode code]).
Proof.
  intros Hreq Hrun. unfold execute_code_try, bind, ret, extern.
  rewrite Hreq. simpl. rewrite Hrun. reflexivity.
Qed.

(** No install is requested and the execution returns. *)
Lemma try_run_returns st sb code package_name ex w :
  install_requested package_name = false ->
  run_code sb code (world st) = (Return ex, w) ->
  execute_code_try sb code package_name st =
  (Return (completed_record package_name (PyStr "") ex), after st w [EvRunCode code]).
Proof.
  intros Hreq Hrun. unfold execute_code_try, bind, ret, extern.
  rewrite Hreq. simpl. rewrite Hrun. reflexivity.
Qed.

Lemma execute_code_try_run st sb code package_name :
  exists o st', try_run st sb code package_name o st'
                /\ execute_code_try sb code package_name st = (raised o, st').
Proof.
  destruct (install_requested package_name) eqn:Hreq.
  - destruct (commands_run sb (install_command package_name) (world st))
      as [[ir|e] w1] eqn:Hinst.
    + destruct (run_code sb code w1) as [[ex|e] w2] eqn:Hrun.
      * eexists. eexists. split; [eapply InstallThenRunReturns; eassumption |].
        eapply try_install_then_run_returns; eassumption.
      * eexists. eexists. split; [eapply InstallThenRunRaises; eassumption |].
        eapply try_install_then_run_raises; eassumption.
    + eexists. eexists. split; [eapply InstallRaises; eassumption |].
      apply try_install_raises; assumption.
  - destruct (run_code sb code (world st)) as [[ex|e] w] eqn:Hrun.
    + eexists. eexists. split; [eapply RunReturns; eassumption |].
      apply try_run_returns; assumption.
    + eexists. eexists. split; [eapply RunRaises; eassumption |].
      apply try_run_raises; assumption.
Qed.

End Runs.

Section Wrapper.
Context `{Externals}.
Implicit Types (st : State) (sb : Sandbox) (code : string)
  (package_name : option string) (e : Exception) (r : dict).

(** With a sandbox, [execute_code] turns the outcome of the [try] body into
    a returned record. *)
Lemma execute_code_of_try st sb code package_name o st' :
  sandbox (code_interpreter st) = Some sb ->
  try_run st sb code package_name o st' ->
  execute_code code package_name st =
  (Return (match o with Return r => r | Raise e => exception_record e end), st').
Proof.
  intros Hsome Hrun. rewrite (execute_code_with_sandbox _ _ _ _ Hsome).
  unfold try_except.
  destruct Hrun as [e w Hreq Hinst | ir w1 e w2 Hreq Hinst Hexec
                   | ir w1 ex w2 Hreq Hinst Hexec | e w Hreq Hexec | ex w Hreq Hexec].
  - rewrite (try_install_raises _ _ _ _ _ _ Hreq Hinst). reflexivity.
  - rewrite (try_install_then_run_raises _ _ _ _ _ _ _ _ Hreq Hinst Hexec). reflexivity.
  - rewrite (try_install_then_run_returns _ _ _ _ _ _ _ _ Hreq Hinst Hexec). reflexivity.
  - rewrite (try_run_raises _ _ _ _ _ _ Hreq Hexec). reflexivity.
  - rewrite (try_run_returns _ _ _ _ _ _ Hreq Hexec). reflexivity.
Qed.

(** The calls of any run of the [try] body: one attempt each, install first. *)
Lemma try_run_single_attempt st sb code package_name o st' :
  try_run st sb code package_name o st' ->
  exists evs, st' = after st (world st') evs
              /\ single_attempt (install_command package_name) code evs.
Proof.
  unfold single_attempt.
  intros [e w _ _ | ir w1 e w2 _ _ _ | ir w1 ex w2 _ _ _ | e w _ _ | ex w _ _];
    eexists; (split; [reflexivity | auto]).
Qed.

(** What [execute_code] returns is one of the three records. *)
Lemma execute_code_records st code package_name r st' :
  execute_code code package_name st = (Return r, st') ->
  r = not_initialized
  \/ (exists e, r = exception_record e)
  \/ (exists install_output ex, r = completed_record package_name install_output ex).
Proof.
  intros Hrun. destruct (sandbox (code_interpreter st)) as [sb|] eqn:Hsb.
  - destruct (execute_code_try_run st sb code package_name) as (o & st1 & Htry & _).
    rewrite (execute_code_of_try _ _ _ _ _ _ Hsb Htry) in Hrun.
    injection Hrun as Hr _. subst r.
    destruct Htry; eauto.
  - rewrite (execute_code_no_sandbox _ _ _ Hsb) in Hrun.
    injection Hrun as Hr _. auto.
Qed.

Lemma completed_record_success package_name install_output ex :
  completed_record package_name install_output ex !! "success" = Some (PyBool true) ->
  completed_record package_name install_output ex !! "error" = Some (PyStr "").
Proof.
  unfold completed_record. intros Hs.
  assert (Ht : truthy (execution_error ex) = false).
  { destruct (truthy (execution_error ex)); [discriminate Hs | reflexivity]. }
  rewrite Ht. reflexivity.
Qed.

Lemma exception_record_differs e : exception_record e <> not_initialized.
Proof.
  intros Heq.
  assert (He : Some (PyStr (exc_str e))
               = Some (PyStr "E2B sandbox not initialized. Check your API key."))
    by exact (f_equal (fun m : dict => m !! "error") Heq).
  assert (Hs : Some (PyStr (exc_str e)) = Some (PyStr ""))
    by exact (f_equal (fun m : dict => m !! "stderr") Heq).
  injection He as He. injection Hs as Hs. rewrite Hs in He. discriminate He.
Qed.

Lemma completed_record_differs package_name install_output ex :
  completed_record package_name install_output ex <> not_initialized.
Proof.
  intros Heq.
  assert (Hs : @None pyval = Some (PyStr ""))
    by exact (f_equal (fun m : dict => m !! "stderr") Heq).
  discriminate Hs.
Qed.

(** [close] without a sandbox does nothing. *)
Lemma close_no_sandbox st :
  sandbox (code_interpreter st) = None -> close st = (Return tt, st).
Proof.
  intros Hnone. unfold close, bind, get_self, ret. rewrite Hnone. reflexivity.
Qed.

(** [close] with a sandbox: the remote close is called once, and whatever it
    answers is printed. *)
Lemma close_with_sandbox st sb :
  sandbox (code_interpreter st) = Some sb ->
  close st =
  (Return tt,
   after st (snd (sandbox_close sb (world st)))
     [EvSandboxClose;
      EvPrint (match fst (sandbox_close sb (world st)) with
               | Return _ => "Closed E2B sandbox"
               | Raise e => "Error closing E2B sandbox: " ++ exc_str e
               end)]).
Proof.
  intros Hsome. unfold close, bind, get_self, try_except, extern, print, after.
  rewrite Hsome.
  destruct (sandbox_close sb (world st)) as [[[]|e] w]; simpl;
    rewrite <- app_assoc; reflexivity.
Qed.

(** The formatting of the tool, step by step, is the specified text. *)
Lemma append_section_spec r key title parts :
  append_section r key title parts = (parts ++ section_of r key title)%list.
Proof.
  unfold append_section, section_of, non_empty.
  destruct (r !! key) as [v|]; simpl.
  - destruct (truthy v); [reflexivity | rewrite app_nil_r; reflexivity].
  - rewrite app_nil_r. reflexivity.
Qed.

Lemma format_result_spec r : format_result r = formatted r.
Proof.
  unfold format_result, formatted. rewrite !append_section_spec.
  rewrite app_nil_l, <- app_assoc. reflexivity.
Qed.

(** Every run of [run_python]'s [try] body is one of the three of [local_run]. *)
Lemma local_run_exists st code : exists o st', local_run st code o st'.
Proof.
  destruct (os_makedirs artifacts_dir (world st)) as [[[]|e] w1] eqn:Hmk.
  - destruct (python_repl_run (rewrite_plotting code) w1) as [[s|e] w2] eqn:Hrepl.
    + eexists. eexists. eapply ReplReturns; eassumption.
    + eexists. eexists. eapply ReplRaises; eassumption.
  - eexists. eexists. eapply MakedirsRaises; eassumption.
Qed.

(** [run_python] turns the outcome of its [try] body into a returned string. *)
Lemma run_python_of_local st code o st' :
  local_run st code o st' ->
  run_python code st = (answer_of_run o, st').
Proof.
  intros Hrun. unfold run_python, try_except, bind, ret, extern, extern_in_process.
  destruct Hrun as [e w Hmk | w1 e w2 Hmk Hrepl | w1 s w2 Hmk Hrepl].
  - rewrite Hmk. reflexivity.
  - rewrite Hmk. simpl. rewrite Hrepl. unfold after. simpl.
    rewrite <- app_assoc. destruct e; reflexivity.
  - rewrite Hmk. simpl. rewrite Hrepl. unfold after. simpl.
    rewrite <- app_assoc. reflexivity.
Qed.

End Wrapper.

(** ** The sandbox wrapper: stated properties *)

(** Without an API key, or when the creation of the sandbox raises, [__init__]
    leaves [self.sandbox] at [None]. *)
Lemma init_without_sandbox `{Externals} (st : State) :
  truthy_opt (os_getenv "E2B_API_KEY" (world st)) = false
  \/ (exists e w, Sandbox_create (os_getenv "E2B_API_KEY" (world st)) (world st)
                  = (Raise e, w)) ->
  sandbox (code_interpreter (snd (init st))) = None.
Proof.
  unfold init, bind, getenv, try_except, extern, print, set_self.
  intros [Hkey | (e & w & Hcreate)].
  - rewrite Hkey. reflexivity.
  - destruct (truthy_opt (os_getenv "E2B_API_KEY" (world st))); simpl.
    + rewrite Hcreate. reflexivity.
    + reflexivity.
Qed.

(** C1: when no sandbox was created ([self.sandbox] is [None]),
    [execute_code] returns, whatever the code and the package name, a record
    whose [success] is [False] and whose [error] is the fixed message
    "E2B sandbox not initialized. Check your API key."; it calls nothing and
    leaves the state as it was. *)
Theorem execute_code_without_sandbox `{Externals} (st : State) (code : string)
    (package_name : option string) :
  sandbox (code_interpreter st) = None ->
  exists r, execute_code code package_name st = (Return r, st)
    /\ r !! "success" = Some (PyBool false)
    /\ r !! "error" = Some (PyStr "E2B sandbox not initialized. Check your API key.").
Proof.
  intros Hnone. exists not_initialized. split.
  - apply execute_code_no_sandbox. exact Hnone.
  - split; reflexivity.
Qed.

Lemma execute_code_without_sandbox_witness :
  sandbox (code_interpreter (Scripted.started Scripted.no_key)) = None
  /\ exists r,
       execute_code "print(42)" (Some "pandas") (Scripted.started Scripted.no_key)
       = (Return r, Scripted.started Scripted.no_key)
       /\ r !! "success" = Some (PyBool false)
       /\ r !! "error" = Some (PyStr "E2B sandbox not initialized. Check your API key.").
Proof.
  split.
  - reflexivity.
  - apply (@execute_code_without_sandbox (Scripted.externals Scripted.no_key)).
    reflexivity.
Defined.

(** C9: in every record returned by [execute_code], a [success] of [True]
    comes with an [error] that is the empty string. *)
Theorem success_has_empty_error `{Externals} (st st' : State) (code : string)
    (package_name : option string) (r : dict) :
  execute_code code package_name st = (Return r, st') ->
  r !! "success" = Some (PyBool true) ->
  r !! "error" = Some (PyStr "").
Proof.
  intros Hrun Hsuccess.
  destruct (execute_code_records _ _ _ _ _ Hrun)
    as [Hr | [(e & Hr) | (install_output & ex & Hr)]]; subst r.
  - discriminate Hsuccess.
  - discriminate Hsuccess.
  - apply completed_record_success. exact Hsuccess.
Qed.

Lemma success_has_empty_error_witness :
  exists r st',
    execute_code "print(42)" (Some "pandas") (Scripted.started Scripted.all_good)
    = (Return r, st')
    /\ r !! "success" = Some (PyBool true)
    /\ r !! "error" = Some (PyStr "").
Proof.
  eexists. eexists. split; [reflexivity | split; [reflexivity |]].
  eapply (@success_has_empty_error (Scripted.externals Scripted.all_good)
            (Scripted.started Scripted.all_good) _ "print(42)" (Some "pandas")).
  - reflexivity.
  - reflexivity.
Defined.

(** C10: [close] never raises: without a sandbox it returns and does
    nothing, with one it calls the remote close once and catches what that
    raises.  It leaves [self.sandbox] as it was, so that an [execute_code]
    after [close] still goes to the sandbox (one attempt of the remote calls)
    and does not return the "not initialized" record. *)
Theorem close_keeps_sandbox `{Externals} (st : State) (code : string)
    (package_name : option string) :
  exists st', close st = (Return tt, st')
    /\ code_interpreter st' = code_interpreter st
    /\ (sandbox (code_interpreter st) = None -> st' = st)
    /\ (is_Some (sandbox (code_interpreter st)) ->
        exists r st'' evs,
          execute_code code package_name st' = (Return r, st'')
          /\ r <> not_initialized
          /\ st'' = after st' (world st'') evs
          /\ single_attempt (install_command package_name) code evs).
Proof.
  destruct (sandbox (code_interpreter st)) as [sb|] eqn:Hsb.
  - rewrite (close_with_sandbox _ _ Hsb). eexists. split; [reflexivity |].
    split; [reflexivity |]. split; [discriminate |]. intros _.
    set (st1 := after st _ _).
    assert (Hsb1 : sandbox (code_interpreter st1) = Some sb) by exact Hsb.
    destruct (execute_code_try_run st1 sb code package_name) as (o & st2 & Htry & _).
    destruct (try_run_single_attempt _ _ _ _ _ _ Htry) as (evs & Hafter & Hsingle).
    eexists. eexists. exists evs.
    split; [exact (execute_code_of_try _ _ _ _ _ _ Hsb1 Htry) |].
    split; [| split; assumption].
    destruct Htry;
      first [apply exception_record_differs | apply completed_record_differs].
  - rewrite (close_no_sandbox _ Hsb). exists st.
    split; [reflexivity |]. split; [reflexivity |]. split; [reflexivity |].
    intros [sb Hsome]. discriminate Hsome.
Qed.

Lemma close_keeps_sandbox_witness :
  is_Some (sandbox (code_interpreter (Scripted.started Scripted.remote_down)))
  /\ exists st',
       close (Scripted.started Scripted.remote_down) = (Return tt, st')
       /\ code_interpreter st' = code_interpreter (Scripted.started Scripted.remote_down)
       /\ exists r st'' evs,
            execute_code "print(42)" (Some "none") st' = (Return r, st'')
            /\ r <> not_initialized
            /\ st'' = after st' (world st'') evs
            /\ single_attempt (install_command (Some "none")) "print(42)" evs.
Proof.
  assert (Hsb : is_Some (sandbox (code_interpreter
                                    (Scripted.started Scripted.remote_down))))
    by (exists tt; reflexivity).
  split; [exact Hsb |].
  destruct (@close_keeps_sandbox (Scripted.externals Scripted.remote_down)
              (Scripted.started Scripted.remote_down) "print(42)" (Some "none"))
    as (st' & Hclose & Hsame & _ & Hexec).
  exists st'. split; [exact Hclose |]. split; [exact Hsame |]. exact (Hexec Hsb).
Defined.

(** C8, as stated, fails: without a sandbox the record has a [stderr] field
    and no [install_output] field, so its fields are not the four of the
    data model. *)
Lemma fields_without_sandbox :
  exists r,
    fst (execute_code "print(42)" (Some "pandas") (Scripted.started Scripted.no_key))
    = Return r
    /\ r !! "stderr" = Some (PyStr "")
    /\ r !! "install_output" = None
    /\ bool_decide (dom r = specified_fields) = false.
Proof.
  exists not_initialized. repeat split; reflexivity.
Qed.

Lemma dom_not_initialized :
  dom not_initialized = ({[ "error"; "stdout"; "stderr"; "success" ]} : gset string).
Proof. reflexivity. Qed.

Lemma dom_exception_record (e : Exception) :
  dom (exception_record e) = ({[ "error"; "stdout"; "stderr"; "success" ]} : gset string).
Proof. reflexivity. Qed.

Lemma dom_completed_record `{Externals} (package_name : option string)
    (install_output : pyval) (ex : Execution) :
  dom (completed_record package_name install_output ex) = specified_fields.
Proof. reflexivity. Qed.

(** C8 (amended): [execute_code] always returns a record; on every branch it
    has the fields [stdout], [error] and [success] and no field other than
    [stdout], [install_output], [error], [success] and [stderr]; the record
    of a completed remote run has [install_output], the records of the
    uninitialized-sandbox and caught-exception branches have [stderr]. *)
Theorem result_fields `{Externals} (st : State) (code : string)
    (package_name : option string) :
  exists r st', execute_code code package_name st = (Return r, st')
    /\ common_fields ⊆ dom r
    /\ dom r ⊆ known_fields
    /\ match sandbox (code_interpreter st) with
       | None => "stderr" ∈ dom r
       | Some sb =>
           match fst (execute_code_try sb code package_name st) with
           | Return _ => "install_output" ∈ dom r
           | Raise _ => "stderr" ∈ dom r
           end
       end.
Proof.
  unfold common_fields, known_fields.
  destruct (sandbox (code_interpreter st)) as [sb|] eqn:Hsb.
  - destruct (execute_code_try_run st sb code package_name) as (o & st1 & Htry & Heq).
    rewrite (execute_code_of_try _ _ _ _ _ _ Hsb Htry), Heq.
    eexists. eexists. split; [reflexivity |]. simpl.
    destruct Htry;
      first [rewrite dom_exception_record
            | rewrite dom_completed_record; unfold specified_fields];
      repeat split; decide_fields.
  - rewrite (execute_code_no_sandbox _ _ _ Hsb).
    eexists. eexists. split; [reflexivity |].
    rewrite dom_not_initialized. repeat split; decide_fields.
Qed.

(** C4, as stated, fails for [run_python]: when the code given to the REPL
    calls [sys.exit(3)], the [SystemExit] is not an instance of [Exception],
    the [except] clause does not catch it, and [run_python] raises it. *)
Lemma system_exit_leaves_run_python :
  fst (@python_repl_run (Scripted.externals Scripted.code_exits)
         (rewrite_plotting "import sys; sys.exit(3)") 2)
  = Raise (NonException "SystemExit" "3")
  /\ run_python "import sys; sys.exit(3)" (Scripted.started Scripted.code_exits)
     = (Raise (NonException "SystemExit" "3"),
        after (Scripted.started Scripted.code_exits) 3
          [EvMakedirs artifacts_dir; EvReplRun "import sys; sys.exit(3)"]).
Proof. split; reflexivity. Qed.

(** C4 (amended): with a sandbox, [execute_code] never raises and makes each
    remote call at most once (no retry); when the install call or the
    execution call raises [e], it returns the record of the [except] clause,
    whose [success] is [False] and whose [error] is [str(e)].  [run_python]
    returns the output of the REPL when nothing is raised, and returns
    "Error: " followed by [str(e)] when creating the directory or running the
    code raises an instance [e] of [Exception]; what the code raises outside
    of [Exception] (a [SystemExit], say) is not caught and leaves
    [run_python]; every call of [run_python] is one of these three. *)
Theorem exceptions_are_caught `{Externals} (st : State) (sb : Sandbox)
    (code : string) (package_name : option string) (local_code : string) :
  sandbox (code_interpreter st) = Some sb ->
  (exists r st' evs,
      execute_code code package_name st = (Return r, st')
      /\ st' = after st (world st') evs
      /\ single_attempt (install_command package_name) code evs)
  /\ (forall e st',
        try_run st sb code package_name (Raise e) st' ->
        execute_code code package_name st = (Return (exception_record e), st')
        /\ exception_record e !! "success" = Some (PyBool false)
        /\ exception_record e !! "error" = Some (PyStr (exc_str e)))
  /\ (exists o st', local_run st local_code o st')
  /\ (forall result st',
        local_run st local_code (Return result) st' ->
        run_python local_code st = (Return result, st'))
  /\ (forall e st',
        local_run st local_code (Raise (Ordinary e)) st' ->
        run_python local_code st = (Return ("Error: " ++ exc_str e), st'))
  /\ (forall class_name message st',
        local_run st local_code (Raise (NonException class_name message)) st' ->
        run_python local_code st = (Raise (NonException class_name message), st')).
Proof.
  intros Hsb. split; [| split; [| split; [| split; [| split]]]].
  - destruct (execute_code_try_run st sb code package_name) as (o & st1 & Htry & _).
    destruct (try_run_single_attempt _ _ _ _ _ _ Htry) as (evs & Hafter & Hsingle).
    eexists. exists st1, evs.
    split; [exact (execute_code_of_try _ _ _ _ _ _ Hsb Htry) | split; assumption].
  - intros e st' Htry.
    split; [exact (execute_code_of_try _ _ _ _ _ _ Hsb Htry) | split; reflexivity].
  - apply local_run_exists.
  - intros result st' Hrun. exact (run_python_of_local _ _ _ _ Hrun).
  - intros e st' Hrun. exact (run_python_of_local _ _ _ _ Hrun).
  - intros class_name message st' Hrun. exact (run_python_of_local _ _ _ _ Hrun).
Qed.

Lemma exceptions_are_caught_witness :
  sandbox (code_interpreter (Scripted.started Scripted.remote_down)) = Some tt
  /\ execute_code "print(42)" (Some "none") (Scripted.started Scripted.remote_down)
     = (Return (exception_record (Exc "connection reset")),
        after (Scripted.started Scripted.remote_down) 2 [EvRunCode "print(42)"])
  /\ run_python "print(42)" (Scripted.started Scripted.remote_down)
     = (Return "Error: timed out",
        after (Scripted.started Scripted.remote_down) 3
          [EvMakedirs artifacts_dir; EvReplRun "print(42)"]).
Proof.
  destruct (@exceptions_are_caught (Scripted.externals Scripted.remote_down)
              (Scripted.started Scripted.remote_down) tt "print(42)" (Some "none")
              "print(42)" eq_refl)
    as (_ & Hremote & _ & _ & Hlocal & _).
  split; [reflexivity |]. split.
  - apply (Hremote (Exc "connection reset")).
    apply (@RunRaises (Scripted.externals Scripted.remote_down)); reflexivity.
  - apply (Hlocal (Exc "timed out")).
    exact (@ReplRaises (Scripted.externals Scripted.remote_down)
             (Scripted.started Scripted.remote_down) "print(42)" 2
             (Ordinary (Exc "timed out")) 3 eq_refl eq_refl).
Defined.

(** C3, as stated, fails: when the install call raises, the returned record
    has no [install_output] field and the code is never sent to the
    sandbox. *)
Lemma install_failure_aborts :
  install_requested (Some "pandas") = true
  /\ fst (@commands_run (Scripted.externals Scripted.install_fails) tt
            (install_command (Some "pandas"))
            (world (Scripted.started Scripted.install_fails)))
     = Raise (Exc "Command exited with code 1")
  /\ exists r st',
       execute_code "print(42)" (Some "pandas") (Scripted.started Scripted.install_fails)
       = (Return r, st')
       /\ r !! "install_output" = None
       /\ r !! "error" = Some (PyStr "Command exited with code 1")
       /\ codes_run (trace st') = [].
Proof.
  split; [reflexivity |]. split; [reflexivity |].
  eexists. eexists. split; [reflexivity |]. repeat split; reflexivity.
Qed.

(** C3 (amended): with a sandbox and a package to install, if the install
    call returns (whatever it reports), the code-execution call is made right
    after it, and the record of a completed run carries the install call's
    stdout in [install_output]; if the install call raises [e], the exception
    is caught, the code is not sent to the sandbox, and the record has
    [success] [False] and [error] [str(e)]. *)
Theorem install_outcome `{Externals} (st : State) (sb : Sandbox)
    (code : string) (package_name : option string) :
  sandbox (code_interpreter st) = Some sb ->
  install_requested package_name = true ->
  (forall ir w1,
      commands_run sb (install_command package_name) (world st) = (Return ir, w1) ->
      exists r st',
        execute_code code package_name st = (Return r, st')
        /\ trace st' = (trace st ++ [EvCommandsRun (install_command package_name);
                                     EvRunCode code])%list
        /\ (forall ex w2, run_code sb code w1 = (Return ex, w2) ->
                          r !! "install_output" = Some (result_stdout ir)))
  /\ (forall e w,
        commands_run sb (install_command package_name) (world st) = (Raise e, w) ->
        execute_code code package_name st
        = (Return (exception_record e),
           after st w [EvCommandsRun (install_command package_name)])
        /\ exception_record e !! "success" = Some (PyBool false)
        /\ exception_record e !! "error" = Some (PyStr (exc_str e))).
Proof.
  intros Hsb Hreq. split.
  - intros ir w1 Hinst.
    destruct (run_code sb code w1) as [[ex|e] w2] eqn:Hexec.
    + eexists. eexists. split.
      * exact (execute_code_of_try _ _ _ _ _ _ Hsb
                 (InstallThenRunReturns _ _ _ _ _ _ _ _ Hreq Hinst Hexec)).
      * split; [reflexivity |]. intros ex' w2' Heq. injection Heq as <- _.
        simpl. unfold completed_record. rewrite Hreq. reflexivity.
    + eexists. eexists. split.
      * exact (execute_code_of_try _ _ _ _ _ _ Hsb
                 (InstallThenRunRaises _ _ _ _ _ _ _ _ Hreq Hinst Hexec)).
      * split; [reflexivity |]. intros ex' w2' Heq. discriminate Heq.
  - intros e w Hinst. split.
    + exact (execute_code_of_try _ _ _ _ _ _ Hsb
               (InstallRaises _ _ _ _ _ _ Hreq Hinst)).
    + split; reflexivity.
Qed.

Lemma install_outcome_witness :
  sandbox (code_interpreter (Scripted.started Scripted.all_good)) = Some tt
  /\ install_requested (Some "pandas") = true
  /\ exists r st',
       execute_code "print(42)" (Some "pandas") (Scripted.started Scripted.all_good)
       = (Return r, st')
       /\ trace st' = (trace (Scripted.started Scripted.all_good)
                       ++ [EvCommandsRun "pip install pandas"; EvRunCode "print(42)"])%list
       /\ r !! "install_output" = Some (PyStr "Successfully installed pandas").
Proof.
  split; [reflexivity |]. split; [reflexivity |].
  destruct (@install_outcome (Scripted.externals Scripted.all_good)
              (Scripted.started Scripted.all_good) tt "print(42)" (Some "pandas")
              eq_refl eq_refl) as (Hreturns & _).
  destruct (Hreturns (PyStr "Successfully installed pandas") 2 eq_refl)
    as (r & st' & Hexec & Htrace & Hout).
  exists r, st'. split; [exact Hexec |]. split; [exact Htrace |].
  exact (Hout (PyStr "42", PyNone) 3 eq_refl).
Defined.

(** C5, on the code: after a completed remote run with an install, the record
    holds the install call's stdout, the execution's text under [stdout] and
    an empty [error], and it has no [stderr] field, while the record of the
    other two return paths has one. *)
Lemma completed_run_has_no_stderr :
  exists r st',
    execute_code "print(42)" (Some "pandas") (Scripted.started Scripted.all_good)
    = (Return r, st')
    /\ trace st' = (trace (Scripted.started Scripted.all_good)
                    ++ [EvCommandsRun "pip install pandas"; EvRunCode "print(42)"])%list
    /\ r !! "install_output" = Some (PyStr "Successfully installed pandas")
    /\ r !! "stdout" = Some (PyStr "42")
    /\ r !! "error" = Some (PyStr "")
    /\ r !! "stderr" = None
    /\ not_initialized !! "stderr" = Some (PyStr "")
    /\ exception_record (Exc "boom") !! "stderr" = Some (PyStr "boom").
Proof.
  eexists. eexists. split; [reflexivity |]. repeat split; reflexivity.
Qed.

(** C7: the tool [install_and_run_python] returns, for the record [r] that
    [execute_code] returns, the single string [formatted r]: the
    package-installation section, the code-execution section and the error
    section, in this order, joined by blank lines, each present exactly when
    its field ([install_output], [stdout], [error]) is non-empty in [r]. *)
Theorem tool_output_is_formatted `{Externals} (st : State)
    (package_name code : string) :
  exists r st',
    execute_code code (Some package_name) st = (Return r, st')
    /\ install_and_run_python package_name code st = (Return (formatted r), st').
Proof.
  unfold install_and_run_python, bind, ret.
  destruct (sandbox (code_interpreter st)) as [sb|] eqn:Hsb.
  - destruct (execute_code_try_run st sb code (Some package_name))
      as (o & st1 & Htry & _).
    rewrite (execute_code_of_try _ _ _ _ _ _ Hsb Htry).
    eexists. eexists. split; [reflexivity |].
    rewrite format_result_spec. reflexivity.
  - rewrite (execute_code_no_sandbox _ _ _ Hsb).
    eexists. eexists. split; [reflexivity |].
    rewrite format_result_spec. reflexivity.
Qed.

(** ** [str.replace], [in] and [startswith] *)

Section Strings.
Implicit Types (s t u w p q old new : string) (c a : ascii).
#[local] Arguments String.append !s1 s2 : simpl nomatch.

Lemma append_empty_r s : s ++ "" = s.
Proof. induction s as [|c s IH]; simpl; [reflexivity | rewrite IH; reflexivity]. Qed.

Lemma append_assoc s t u : (s ++ t) ++ u = s ++ t ++ u.
Proof. induction s as [|c s IH]; simpl; [reflexivity | rewrite IH; reflexivity]. Qed.

Lemma length_append s t : String.length (s ++ t) = String.length s + String.length t.
Proof. induction s as [|c s IH]; simpl; [reflexivity | rewrite IH; reflexivity]. Qed.

Lemma startswith_append p t : startswith (p ++ t) p = true.
Proof.
  induction p as [|a p IH]; simpl; [reflexivity |].
  rewrite Ascii.eqb_refl, IH. reflexivity.
Qed.

(** A string that starts with [p] is [p] followed by something. *)
Lemma startswith_split s p : startswith s p = true -> exists t, s = p ++ t.
Proof.
  revert s. induction p as [|a p IH]; intros s Hs; simpl in *.
  - exists s. reflexivity.
  - destruct s as [|b s]; [discriminate |].
    apply andb_prop in Hs as [Hab Hs]. apply Ascii.eqb_eq in Hab. subst b.
    destruct (IH _ Hs) as [t ->]. exists t. reflexivity.
Qed.

(** A prefix found in [s] is still there when [s] is extended. *)
Lemma startswith_extend s t p : startswith s p = true -> startswith (s ++ t) p = true.
Proof.
  intros Hs. destruct (startswith_split _ _ Hs) as [u ->].
  rewrite append_assoc. apply startswith_append.
Qed.

(** A prefix [q] of [w ++ x] lies within [w], or [w] is a part of it and the
    rest, which is not empty, is a prefix of [x]. *)
Lemma startswith_append_cases w x q :
  startswith (w ++ x) q = true ->
  startswith w q = true
  \/ exists q2, q = w ++ q2 /\ q2 <> "" /\ startswith x q2 = true.
Proof.
  revert w. induction q as [|a q IH]; intros w Hq.
  - left. reflexivity.
  - destruct w as [|b w].
    + right. exists (String a q). split; [reflexivity |]. split; [discriminate | exact Hq].
    + simpl in Hq. apply andb_prop in Hq as [Hab Hq].
      destruct (IH _ Hq) as [Hw | (q2 & Heq & Hne & Hx)].
      * left. simpl. rewrite Hab, Hw. reflexivity.
      * right. exists q2. apply Ascii.eqb_eq in Hab. subst b.
        split; [simpl; rewrite Heq; reflexivity | split; assumption].
Qed.

Lemma contains_empty p : p <> "" -> contains p "" = false.
Proof. destruct p; [congruence | reflexivity]. Qed.

(** While characters of a match are dropped, the scan copies nothing. *)
Lemma replace_scan_skip old new u s :
  replace_scan old new (u ++ s) (String.length u) = replace_scan old new s 0.
Proof.
  induction u as [|c u IH]; simpl.
  - destruct s; reflexivity.
  - exact IH.
Qed.

(** The scan at a match: the replacement, then the scan of what follows. *)
Lemma replace_scan_match a old new t :
  replace_scan (String a old) new (String a old ++ t) 0
  = new ++ replace_scan (String a old) new t 0.
Proof.
  change (String a old ++ t) with (String a (old ++ t)).
  cbn [replace_scan].
  change (String a (old ++ t)) with (String a old ++ t).
  rewrite startswith_append.
  replace (String.length (String a old) - 1) with (String.length old)
    by (simpl; lia).
  rewrite replace_scan_skip. reflexivity.
Qed.

(** The scan where there is no match: the character is copied. *)
Lemma replace_scan_copy old new c s :
  startswith (String c s) old = false ->
  replace_scan old new (String c s) 0 = String c (replace_scan old new s 0).
Proof. intros Hno. cbn [replace_scan]. rewrite Hno. reflexivity. Qed.

(** The first part of a joined list is a prefix of the result. *)
Lemma join_head sep g segs : exists rest, join sep (g :: segs) = g ++ rest.
Proof.
  destruct segs as [|g' segs]; simpl.
  - exists "". rewrite append_empty_r. reflexivity.
  - eexists. reflexivity.
Qed.

Lemma join_cons sep g g' segs :
  join sep (g :: g' :: segs) = g ++ sep ++ join sep (g' :: segs).
Proof. reflexivity. Qed.

(** [replace] cuts the string at the occurrences of [old] it finds, left to
    right, and joins the pieces, none of which contains [old], with [new]. *)
Lemma replace_segments a old new s :
  exists segs,
    s = join (String a old) segs
    /\ replace s (String a old) new = join new segs
    /\ Forall (fun g => contains (String a old) g = false) segs
    /\ segs <> [].
Proof.
  unfold replace.
  remember (String.length s) as n eqn:Hn.
  assert (Hle : String.length s <= n) by lia. clear Hn.
  revert s Hle. induction n as [|n IH]; intros s Hle.
  - destruct s; [| simpl in Hle; lia].
    exists [""]. repeat split; [repeat constructor | discriminate].
  - destruct s as [|c s]; [exists [""]; repeat split; [repeat constructor | discriminate] |].
    destruct (startswith (String c s) (String a old)) eqn:Hsw.
    + destruct (startswith_split _ _ Hsw) as [t Ht]. rewrite Ht.
      assert (Hlen : String.length t <= n).
      { apply (f_equal String.length) in Ht. rewrite length_append in Ht.
        simpl in Ht, Hle. lia. }
      destruct (IH t Hlen) as (segs & Hjoin & Hrep & Hfree & Hne).
      destruct segs as [|g segs]; [congruence |].
      exists ("" :: g :: segs). split; [| split; [| split]].
      * rewrite join_cons. simpl. simpl in Hjoin. rewrite <- Hjoin. reflexivity.
      * rewrite replace_scan_match, join_cons, Hrep. reflexivity.
      * constructor; [reflexivity | exact Hfree].
      * discriminate.
    + assert (Hlen : String.length s <= n) by (simpl in Hle; lia).
      destruct (IH s Hlen) as (segs & Hjoin & Hrep & Hfree & Hne).
      destruct segs as [|g segs]; [congruence |].
      exists (String c g :: segs). split; [| split; [| split]].
      * destruct segs; simpl in *; rewrite <- Hjoin; reflexivity.
      * rewrite (replace_scan_copy _ _ _ _ Hsw), Hrep.
        destruct segs; reflexivity.
      * apply Forall_cons in Hfree as [Hg Hrest]. constructor; [| exact Hrest].
        change (contains (String a old) (String c g))
          with (startswith (String c g) (String a old) || contains (String a old) g).
        rewrite Hg, orb_false_r.
        destruct (startswith (String c g) (String a old)) eqn:Hcg; [| reflexivity].
        destruct (join_head (String a old) g segs) as [rest Hrest'].
        rewrite Hjoin, Hrest' in Hsw.
        change (String c (g ++ rest)) with (String c g ++ rest) in Hsw.
        rewrite (startswith_extend _ rest _ Hcg) in Hsw. discriminate Hsw.
      * discriminate.
Qed.

End Strings.

(** ** The rewriting of plotting calls *)

Section Plotting.
Implicit Types (s t u w code : string) (c : ascii).
#[local] Arguments String.append !s1 s2 : simpl nomatch.

(** No occurrence of "plt.show()" starts inside the replacement text. *)
Lemma contains_show_save_and_report t :
  contains "plt.show()" (save_and_report ++ t) = contains "plt.show()" t.
Proof. reflexivity. Qed.

(** An occurrence of "plt.show()" that starts before the replacement text
    ends before it. *)
Lemma show_before_save_and_report w t :
  w <> "" ->
  startswith (w ++ save_and_report ++ t) "plt.show()" = true ->
  startswith w "plt.show()" = true.
Proof.
  intros Hw Hsw.
  destruct (startswith_append_cases _ _ _ Hsw) as [Hin | (q2 & Heq & Hne & Hq2)];
    [exact Hin | exfalso].
  destruct w as [|c w]; [congruence |].
  injection Heq as _ Heq.
  repeat (destruct w as [|? w];
          [simpl in Heq; subst q2; discriminate Hq2 | injection Heq as _ Heq]).
  destruct w; simpl in Heq; [subst q2; congruence | discriminate Heq].
Qed.

(** An occurrence of "plt.show()" that starts before the output of the scan
    was already in the scanned text. *)
Lemma show_across_scan s w :
  w <> "" ->
  startswith (w ++ replace_scan "plt.show()" save_and_report s 0) "plt.show()" = true ->
  startswith (w ++ s) "plt.show()" = true.
Proof.
  remember (String.length s) as n eqn:Hn.
  assert (Hle : String.length s <= n) by lia. clear Hn.
  revert s w Hle. induction n as [|n IH]; intros s w Hle Hw Hsw.
  - destruct s; [exact Hsw | simpl in Hle; lia].
  - destruct s as [|c s]; [exact Hsw |].
    destruct (startswith (String c s) "plt.show()") eqn:Hhere.
    + destruct (startswith_split _ _ Hhere) as [t Ht]. rewrite Ht in Hsw |- *.
      rewrite replace_scan_match in Hsw.
      apply startswith_extend.
      exact (show_before_save_and_report _ _ Hw Hsw).
    + rewrite (replace_scan_copy _ _ _ _ Hhere) in Hsw.
      assert (Hlen : String.length s <= n) by (simpl in Hle; lia).
      assert (Hshift : forall x, w ++ String c x = (w ++ String c "") ++ x).
      { intros x. rewrite append_assoc. reflexivity. }
      rewrite Hshift in Hsw |- *.
      apply (IH s _ Hlen); [| exact Hsw].
      destruct w; discriminate.
Qed.

(** After the replacement no "plt.show()" is left. *)
Lemma no_show_after_replace code :
  contains "plt.show()" (replace code "plt.show()" save_and_report) = false.
Proof.
  unfold replace.
  remember (String.length code) as n eqn:Hn.
  assert (Hle : String.length code <= n) by lia. clear Hn.
  revert code Hle. induction n as [|n IH]; intros s Hle.
  - destruct s; [reflexivity | simpl in Hle; lia].
  - destruct s as [|c s]; [reflexivity |].
    destruct (startswith (String c s) "plt.show()") eqn:Hhere.
    + destruct (startswith_split _ _ Hhere) as [t Ht]. rewrite Ht.
      rewrite replace_scan_match, contains_show_save_and_report.
      apply IH. apply (f_equal String.length) in Ht.
      rewrite length_append in Ht. simpl in Ht, Hle. lia.
    + rewrite (replace_scan_copy _ _ _ _ Hhere).
      assert (Hlen : String.length s <= n) by (simpl in Hle; lia).
      change (contains "plt.show()"
                (String c (replace_scan "plt.show()" save_and_report s 0)))
        with (startswith (String c (replace_scan "plt.show()" save_and_report s 0))
                "plt.show()"
              || contains "plt.show()" (replace_scan "plt.show()" save_and_report s 0)).
      rewrite (IH s Hlen), orb_false_r.
      destruct (startswith (String c (replace_scan "plt.show()" save_and_report s 0))
                  "plt.show()") eqn:Hout; [| reflexivity].
      assert (Hin : startswith (String c "" ++ s) "plt.show()" = true).
      { apply show_across_scan; [discriminate | exact Hout]. }
      simpl in Hin. simpl in Hhere. rewrite Hin in Hhere. discriminate Hhere.
Qed.

End Plotting.

(** ** The local tool: stated properties *)

(** Whatever a call of [run_python] ends in, the strings it hands to the REPL
    are: the rewritten code, once, when the artifacts directory could be
    created, and none otherwise. *)
Lemma run_python_executes `{Externals} (st : State) (code : string) :
  exists o st' evs,
    run_python code st = (o, st')
    /\ st' = after st (world st') evs
    /\ executed evs = match fst (os_makedirs artifacts_dir (world st)) with
                      | Return _ => [rewrite_plotting code]
                      | Raise _ => []
                      end.
Proof.
  destruct (local_run_exists st code) as (o & st' & Hrun).
  rewrite (run_python_of_local _ _ _ _ Hrun).
  destruct Hrun as [e w Hmk | w1 e w2 Hmk Hrepl | w1 s w2 Hmk Hrepl];
    rewrite Hmk; eexists; eexists; eexists;
    (split; [reflexivity | split; reflexivity]).
Qed.

(** C2, as stated, fails: code that calls "plt.show()" without mentioning a
    matplotlib import (the REPL keeps earlier imports) is executed
    unchanged. *)
Lemma show_without_import_is_kept :
  contains "plt.show()" "plt.plot([1, 2]); plt.show()" = true
  /\ rewrite_plotting "plt.plot([1, 2]); plt.show()" = "plt.plot([1, 2]); plt.show()"
  /\ executed (trace (snd (run_python "plt.plot([1, 2]); plt.show()"
                             (Scripted.started Scripted.all_good))))
     = ["plt.plot([1, 2]); plt.show()"]
  /\ replace "plt.plot([1, 2]); plt.show()" "plt.show()" save_and_report
     = "plt.plot([1, 2]); " ++ save_and_report.
Proof. repeat split; reflexivity. Qed.

(** C2 (amended): for code that mentions a matplotlib import ("import
    matplotlib", "import plt" or "from matplotlib") and contains
    "plt.show()", the string handed to the REPL is the code with every
    occurrence of "plt.show()" replaced by the save-and-report text: the code
    is pieces free of "plt.show()" joined by "plt.show()", the executed string
    is the same pieces joined by the save-and-report text, and it contains no
    "plt.show()".  For code that mentions none of the three imports, the
    string handed to the REPL is the code itself.  [run_python] executes that
    string, and only it, once the artifacts directory exists. *)
Theorem show_is_replaced `{Externals} (st : State) (code : string) :
  (mentions_matplotlib code = true ->
   contains "plt.show()" code = true ->
   (exists segs,
       code = join "plt.show()" segs
       /\ rewrite_plotting code = join save_and_report segs
       /\ Forall (fun g => contains "plt.show()" g = false) segs)
   /\ contains "plt.show()" (rewrite_plotting code) = false)
  /\ (mentions_matplotlib code = false -> rewrite_plotting code = code)
  /\ exists o st' evs,
       run_python code st = (o, st')
       /\ st' = after st (world st') evs
       /\ executed evs = match fst (os_makedirs artifacts_dir (world st)) with
                         | Return _ => [rewrite_plotting code]
                         | Raise _ => []
                         end.
Proof.
  split; [| split].
  - intros Hmpl Hshow.
    assert (Hrw : rewrite_plotting code = replace code "plt.show()" save_and_report).
    { unfold rewrite_plotting. rewrite Hmpl, Hshow. reflexivity. }
    split.
    + destruct (replace_segments "p" "lt.show()" save_and_report code)
        as (segs & Hjoin & Hrep & Hfree & _).
      exists segs. rewrite Hrw. auto.
    + rewrite Hrw. apply no_show_after_replace.
  - intros Hmpl. unfold rewrite_plotting. rewrite Hmpl. reflexivity.
  - apply run_python_executes.
Qed.

Lemma show_is_replaced_witness :
  mentions_matplotlib "import matplotlib.pyplot as plt; plt.plot([1, 2]); plt.show()" = true
  /\ contains "plt.show()"
       "import matplotlib.pyplot as plt; plt.plot([1, 2]); plt.show()" = true
  /\ rewrite_plotting "import matplotlib.pyplot as plt; plt.plot([1, 2]); plt.show()"
     = "import matplotlib.pyplot as plt; plt.plot([1, 2]); " ++ save_and_report
  /\ contains "plt.show()"
       (rewrite_plotting "import matplotlib.pyplot as plt; plt.plot([1, 2]); plt.show()")
     = false
  /\ mentions_matplotlib "import pylab as plt; plt.show()" = false
  /\ rewrite_plotting "import pylab as plt; plt.show()"
     = "import pylab as plt; plt.show()".
Proof.
  split; [reflexivity |]. split; [reflexivity |]. split; [reflexivity |].
  split; [| split; [reflexivity |]].
  - exact (proj2 (proj1 (@show_is_replaced (Scripted.externals Scripted.all_good)
                           (Scripted.started Scripted.all_good)
                           "import matplotlib.pyplot as plt; plt.plot([1, 2]); plt.show()")
                    eq_refl eq_refl)).
  - exact (proj1 (proj2 (@show_is_replaced (Scripted.externals Scripted.all_good)
                           (Scripted.started Scripted.all_good)
                           "import pylab as plt; plt.show()"))
             eq_refl).
Defined.

(** C6, as stated, fails: code that uses [plt] without "plt.show()" and
    without "savefig", but mentions no matplotlib import, gets nothing
    appended. *)
Lemma plot_without_import_is_kept :
  contains "plt" "plt.plot([1, 2])" = true
  /\ contains "plt.show()" "plt.plot([1, 2])" = false
  /\ contains "savefig" "plt.plot([1, 2])" = false
  /\ rewrite_plotting "plt.plot([1, 2])" = "plt.plot([1, 2])"
  /\ executed (trace (snd (run_python "plt.plot([1, 2])"
                             (Scripted.started Scripted.all_good))))
     = ["plt.plot([1, 2])"].
Proof. repeat split; reflexivity. Qed.

(** C6 (amended): for code that mentions a matplotlib import ("import
    matplotlib", "import plt" or "from matplotlib"), contains "plt", and
    contains neither "plt.show()" nor "savefig", the string handed to the
    REPL is the code followed by a newline and the save-and-report text (the
    [plt.savefig] to the artifacts figure path, a newline, the [print] of
    that path).  For code that mentions none of the three imports, the string
    handed to the REPL is the code itself.  [run_python] executes that
    string, and only it, once the artifacts directory exists. *)
Theorem save_is_appended `{Externals} (st : State) (code : string) :
  (mentions_matplotlib code = true ->
   contains "plt" code = true ->
   contains "plt.show()" code = false ->
   contains "savefig" code = false ->
   rewrite_plotting code
   = code ++ nl ++ "plt.savefig('./src/agent/artifacts/figure.png')" ++ nl
          ++ "print('Figure saved to ./src/agent/artifacts/figure.png')")
  /\ (mentions_matplotlib code = false -> rewrite_plotting code = code)
  /\ exists o st' evs,
       run_python code st = (o, st')
       /\ st' = after st (world st') evs
       /\ executed evs = match fst (os_makedirs artifacts_dir (world st)) with
                         | Return _ => [rewrite_plotting code]
                         | Raise _ => []
                         end.
Proof.
  split; [| split].
  - intros Hmpl Hplt Hshow Hsave.
    unfold rewrite_plotting. rewrite Hmpl, Hshow, Hplt, Hsave. reflexivity.
  - intros Hmpl. unfold rewrite_plotting. rewrite Hmpl. reflexivity.
  - apply run_python_executes.
Qed.

Lemma save_is_appended_witness :
  mentions_matplotlib "import matplotlib.pyplot as plt; plt.plot([1, 2])" = true
  /\ contains "plt" "import matplotlib.pyplot as plt; plt.plot([1, 2])" = true
  /\ contains "plt.show()" "import matplotlib.pyplot as plt; plt.plot([1, 2])" = false
  /\ contains "savefig" "import matplotlib.pyplot as plt; plt.plot([1, 2])" = false
  /\ rewrite_plotting "import matplotlib.pyplot as plt; plt.plot([1, 2])"
     = "import matplotlib.pyplot as plt; plt.plot([1, 2])" ++ nl
       ++ "plt.savefig('./src/agent/artifacts/figure.png')" ++ nl
       ++ "print('Figure saved to ./src/agent/artifacts/figure.png')"
  /\ mentions_matplotlib "import pylab as plt; plt.plot([1, 2])" = false
  /\ rewrite_plotting "import pylab as plt; plt.plot([1, 2])"
     = "import pylab as plt; plt.plot([1, 2])".
Proof.
  do 4 (split; [reflexivity |]).
  split; [| split; [reflexivity |]].
  - exact (proj1 (@save_is_appended (Scripted.externals Scripted.all_good)
                    (Scripted.started Scripted.all_good)
                    "import matplotlib.pyplot as plt; plt.plot([1, 2])")
             eq_refl eq_refl eq_refl eq_refl).
  - exact (proj1 (proj2 (@save_is_appended (Scripted.externals Scripted.all_good)
                           (Scripted.started Scripted.all_good)
                           "import pylab as plt; plt.plot([1, 2])"))
             eq_refl).
Defined.

(** ** Further properties of the sandbox wrapper and its tools *)

Lemma count_events_app (kind : Event -> bool) (evs1 evs2 : list Event) :
  count_events kind (evs1 ++ evs2)%list
  = count_events kind evs1 + count_events kind evs2.
Proof.
  induction evs1 as [|ev evs1 IH]; simpl; [reflexivity | rewrite IH; lia].
Qed.

(** [__init__] never raises and tries to create a sandbox at most once.
    Without a credential (no key, or an empty one) it makes no call at all and
    leaves [sandbox] at [None].  The cleanup at exit is registered exactly
    when a sandbox was obtained, and the key read from the environment is
    stored. *)
Theorem init_outcome `{Externals} (st : State) :
  exists st' evs,
    init st = (Return tt, st')
    /\ trace st' = (trace st ++ evs)%list
    /\ api_key (code_interpreter st') = os_getenv "E2B_API_KEY" (world st)
    /\ count_events is_create evs <= 1
    /\ count_events is_register evs
       = match sandbox (code_interpreter st') with Some _ => 1 | None => 0 end
    /\ (truthy_opt (os_getenv "E2B_API_KEY" (world st)) = false ->
        world st' = world st
        /\ count_events is_create evs = 0
        /\ sandbox (code_interpreter st') = None).
Proof.
  unfold init, bind, getenv, try_except, extern, print, set_self.
  destruct (truthy_opt (os_getenv "E2B_API_KEY" (world st))) eqn:Hkey; simpl.
  - destruct (Sandbox_create (os_getenv "E2B_API_KEY" (world st)) (world st))
      as [[sb|e] w] eqn:Hcreate; simpl.
    + eexists. eexists. split; [reflexivity |]. simpl.
      split; [rewrite <- !app_assoc; reflexivity |].
      split; [reflexivity |]. split; [simpl; lia |].
      split; [reflexivity | discriminate].
    + eexists. eexists. split; [reflexivity |]. simpl.
      split; [rewrite <- !app_assoc; reflexivity |].
      split; [reflexivity |]. split; [simpl; lia |].
      split; [reflexivity | discriminate].
  - eexists. eexists. split; [reflexivity |]. simpl.
    split; [rewrite <- !app_assoc; reflexivity |].
    split; [reflexivity |]. split; [simpl; lia |].
    split; [reflexivity |]. intros _. repeat split; reflexivity.
Qed.

Lemma init_outcome_witness :
  truthy_opt (@os_getenv (Scripted.externals Scripted.no_key) "E2B_API_KEY"
                (world (Scripted.boot Scripted.no_key))) = false
  /\ exists st',
       init (Scripted.boot Scripted.no_key) = (Return tt, st')
       /\ world st' = world (Scripted.boot Scripted.no_key)
       /\ sandbox (code_interpreter st') = None.
Proof.
  split; [reflexivity |].
  destruct (@init_outcome (Scripted.externals Scripted.no_key)
              (Scripted.boot Scripted.no_key))
    as (st' & evs & Hinit & _ & _ & _ & _ & Hnokey).
  destruct (Hnokey eq_refl) as (Hworld & _ & Hnone).
  exists st'. split; [exact Hinit |]. split; [exact Hworld | exact Hnone].
Defined.

(** Without a sandbox, the tool [install_and_run_python] answers every call
    with the text "Error:", a newline and the fixed message, and calls
    nothing. *)
Theorem tool_without_sandbox `{Externals} (st : State) (package_name code : string) :
  sandbox (code_interpreter st) = None ->
  install_and_run_python package_name code st
  = (Return ("Error:" ++ nl ++ "E2B sandbox not initialized. Check your API key."), st).
Proof.
  intros Hnone. unfold install_and_run_python, bind, ret.
  rewrite (execute_code_no_sandbox _ _ _ Hnone). reflexivity.
Qed.

Lemma tool_without_sandbox_witness :
  sandbox (code_interpreter (Scripted.started Scripted.create_fails)) = None
  /\ install_and_run_python "pandas" "print(42)" (Scripted.started Scripted.create_fails)
     = (Return ("Error:" ++ nl ++ "E2B sandbox not initialized. Check your API key."),
        Scripted.started Scripted.create_fails).
Proof.
  split; [reflexivity |].
  apply (@tool_without_sandbox (Scripted.externals Scripted.create_fails)).
  reflexivity.
Defined.

(** When a remote call raises [e], the tool returns only the error section,
    "Error:", a newline and [str(e)]: the output of an install that had
    succeeded before is not part of it.  When [str(e)] is empty the tool
    returns the empty string. *)
Theorem tool_reports_exception_only `{Externals} (st st' : State) (sb : Sandbox)
    (package_name code : string) (e : Exception) :
  sandbox (code_interpreter st) = Some sb ->
  try_run st sb code (Some package_name) (Raise e) st' ->
  install_and_run_python package_name code st
  = (Return (if String.eqb (exc_str e) "" then "" else "Error:" ++ nl ++ exc_str e),
     st').
Proof.
  intros Hsb Htry. unfold install_and_run_python, bind, ret.
  rewrite (execute_code_of_try _ _ _ _ _ _ Hsb Htry).
  unfold format_result, append_section, exception_record.
  change ((<["error" := PyStr (exc_str e)]>
           (<["stdout" := PyStr ""]>
           (<["stderr" := PyStr (exc_str e)]>
           (<["success" := PyBool false]> (∅ : dict)))))
          !! "install_output") with (@None pyval).
  change ((<["error" := PyStr (exc_str e)]>
           (<["stdout" := PyStr ""]>
           (<["stderr" := PyStr (exc_str e)]>
           (<["success" := PyBool false]> (∅ : dict)))))
          !! "stdout") with (Some (PyStr "")).
  change ((<["error" := PyStr (exc_str e)]>
           (<["stdout" := PyStr ""]>
           (<["stderr" := PyStr (exc_str e)]>
           (<["success" := PyBool false]> (∅ : dict)))))
          !! "error") with (Some (PyStr (exc_str e))).
  simpl. destruct (String.eqb (exc_str e) ""); reflexivity.
Qed.

Lemma tool_reports_exception_only_witness :
  sandbox (code_interpreter (Scripted.started Scripted.remote_down)) = Some tt
  /\ install_and_run_python "pandas" "print(42)" (Scripted.started Scripted.remote_down)
     = (Return ("Error:" ++ nl ++ "connection reset"),
        after (Scripted.started Scripted.remote_down) 3
          [EvCommandsRun "pip install pandas"; EvRunCode "print(42)"]).
Proof.
  split; [reflexivity |].
  apply (@tool_reports_exception_only (Scripted.externals Scripted.remote_down)
           (Scripted.started Scripted.remote_down) _ tt "pandas" "print(42)"
           (Exc "connection reset") eq_refl).
  exact (@InstallThenRunRaises (Scripted.externals Scripted.remote_down)
           (Scripted.started Scripted.remote_down) tt "print(42)" (Some "pandas")
           (PyStr "") 2 (Exc "connection reset") 3 eq_refl eq_refl eq_refl).
Defined.

(** A package name that is empty, or "none" in any letter case, installs
    nothing: with a sandbox, the only remote call of [execute_code] is the
    execution of the code, and the record it returns has no non-empty
    [install_output]. *)
Theorem sentinel_skips_install `{Externals} (st : State) (sb : Sandbox)
    (code package_name : string) :
  sandbox (code_interpreter st) = Some sb ->
  package_name = "" \/ lower package_name = "none" ->
  exists r st',
    execute_code code (Some package_name) st = (Return r, st')
    /\ st' = after st (world st') [EvRunCode code]
    /\ non_empty r "install_output" = false.
Proof.
  intros Hsb Hname.
  assert (Hreq : install_requested (Some package_name) = false).
  { unfold install_requested. destruct Hname as [-> | Hlower]; [reflexivity |].
    rewrite Hlower. apply andb_false_r. }
  destruct (run_code sb code (world st)) as [[ex|e] w] eqn:Hexec.
  - eexists. eexists. split.
    + exact (execute_code_of_try _ _ _ _ _ _ Hsb
               (RunReturns _ _ _ _ _ _ Hreq Hexec)).
    + split; [reflexivity |].
      unfold non_empty, completed_record. rewrite Hreq. reflexivity.
  - eexists. eexists. split.
    + exact (execute_code_of_try _ _ _ _ _ _ Hsb
               (RunRaises _ _ _ _ _ _ Hreq Hexec)).
    + split; reflexivity.
Qed.

Lemma sentinel_skips_install_witness :
  sandbox (code_interpreter (Scripted.started Scripted.all_good)) = Some tt
  /\ lower "NoNe" = "none"
  /\ exists r st',
       execute_code "print(42)" (Some "NoNe") (Scripted.started Scripted.all_good)
       = (Return r, st')
       /\ st' = after (Scripted.started Scripted.all_good) (world st')
                  [EvRunCode "print(42)"]
       /\ non_empty r "install_output" = false.
Proof.
  split; [reflexivity |]. split; [reflexivity |].
  apply (@sentinel_skips_install (Scripted.externals Scripted.all_good)
           (Scripted.started Scripted.all_good) tt "print(42)" "NoNe" eq_refl).
  right. reflexivity.
Defined.

(** The tool [cleanup_sandbox] always returns its message of success: also
    when there is no sandbox to close, and when the remote close raised (the
    failure is only printed). *)
Theorem cleanup_always_reports_success `{Externals} (st : State) :
  exists st',
    cleanup_sandbox st
    = (Return "E2B sandbox has been successfully cleaned up and resources released.",
       st')
    /\ (sandbox (code_interpreter st) = None -> st' = st)
    /\ (forall sb e w,
          sandbox (code_interpreter st) = Some sb ->
          sandbox_close sb (world st) = (Raise e, w) ->
          st' = after st w [EvSandboxClose;
                            EvPrint ("Error closing E2B sandbox: " ++ exc_str e)]).
Proof.
  unfold cleanup_sandbox, try_except, bind, ret.
  destruct (sandbox (code_interpreter st)) as [sb|] eqn:Hsb.
  - rewrite (close_with_sandbox _ _ Hsb). eexists. split; [reflexivity |].
    split; [discriminate |]. intros sb' e w Heq Hclose.
    injection Heq as <-. rewrite Hclose. reflexivity.
  - rewrite (close_no_sandbox _ Hsb). exists st. split; [reflexivity |].
    split; [reflexivity |]. intros sb e w Heq. discriminate Heq.
Qed.

(** [close] has no memory of having run: with a sandbox, two calls of
    [close] in a row call the remote close twice. *)
Theorem close_twice_closes_twice `{Externals} (st : State) :
  is_Some (sandbox (code_interpreter st)) ->
  exists st1 st2 evs,
    close st = (Return tt, st1)
    /\ close st1 = (Return tt, st2)
    /\ trace st2 = (trace st ++ evs)%list
    /\ count_events is_close evs = 2.
Proof.
  intros [sb Hsb].
  pose proof (close_with_sandbox st sb Hsb) as Hfirst.
  set (st1 := after st _ _) in Hfirst.
  assert (Hsb1 : sandbox (code_interpreter st1) = Some sb) by exact Hsb.
  pose proof (close_with_sandbox st1 sb Hsb1) as Hsecond.
  exists st1. eexists. eexists.
  split; [exact Hfirst |]. split; [exact Hsecond |].
  split; [simpl; rewrite <- app_assoc; reflexivity | reflexivity].
Qed.

Lemma close_twice_closes_twice_witness :
  is_Some (sandbox (code_interpreter (Scripted.started Scripted.all_good)))
  /\ exists st1 st2 evs,
       close (Scripted.started Scripted.all_good) = (Return tt, st1)
       /\ close st1 = (Return tt, st2)
       /\ trace st2 = (trace (Scripted.started Scripted.all_good) ++ evs)%list
       /\ count_events is_close evs = 2.
Proof.
  assert (Hsb : is_Some (sandbox (code_interpreter
                                    (Scripted.started Scripted.all_good))))
    by (exists tt; reflexivity).
  split; [exact Hsb |].
  exact (@close_twice_closes_twice (Scripted.externals Scripted.all_good)
           (Scripted.started Scripted.all_good) Hsb).
Defined.

(** *** The interpreter object and the trace under the tools *)

Section Keeps.
Context `{Externals}.








End Keeps.



Section Formatting.
#[local] Arguments String.append !s1 s2 : simpl nomatch.

(** The formatting of [install_and_run_python] gives the empty string exactly
    when none of [install_output], [stdout] and [error] is non-empty in the
    record. *)
Theorem format_result_empty (result : dict) :
  format_result result = ""
  <-> (non_empty result "install_output" = false
       /\ non_empty result "stdout" = false
       /\ non_empty result "error" = false).
Proof.
  rewrite format_result_spec. unfold formatted, section_of.
  destruct (non_empty result "install_output");
    destruct (non_empty result "stdout");
    destruct (non_empty result "error"); simpl;
    (split; [intros Hempty; try discriminate Hempty; auto
            | intros (H1 & H2 & H3); try discriminate; reflexivity]).
Qed.

End Formatting.

(** ** Further properties of the local tool *)

Section Rewriting.
Implicit Types (s t u w x q code : string) (c : ascii).
#[local] Arguments String.append !s1 s2 : simpl nomatch.

Lemma contains_cons q c s :
  contains q (String c s) = startswith (String c s) q || contains q s.
Proof. reflexivity. Qed.

(** What occurs in [x] occurs in [u ++ x]. *)
Lemma contains_append_r q u x : contains q x = true -> contains q (u ++ x) = true.
Proof.
  intros Hx. induction u as [|c u IH]; [exact Hx |].
  change (String c u ++ x) with (String c (u ++ x)).
  rewrite contains_cons, IH. apply orb_true_r.
Qed.

(** What occurs in [u] occurs in [u ++ x]. *)
Lemma contains_append_l q u x : contains q u = true -> contains q (u ++ x) = true.
Proof.
  induction u as [|c u IH]; intros Hu.
  - destruct q; [| discriminate Hu]. destruct x; reflexivity.
  - rewrite contains_cons in Hu.
    change (String c u ++ x) with (String c (u ++ x)). rewrite contains_cons.
    apply orb_true_iff in Hu as [Hhere | Hlater].
    + change (String c (u ++ x)) with (String c u ++ x).
      rewrite (startswith_extend _ x _ Hhere). reflexivity.
    + rewrite (IH Hlater). apply orb_true_r.
Qed.

(** Appending the save-and-report text on a new line brings no
    "plt.show()". *)
Lemma no_show_after_append s :
  contains "plt.show()" s = false ->
  contains "plt.show()" (s ++ nl ++ save_and_report) = false.
Proof.
  induction s as [|c s IH]; intros Hs; [reflexivity |].
  rewrite contains_cons in Hs. apply orb_false_iff in Hs as [Hhere Hlater].
  change (String c s ++ nl ++ save_and_report)
    with (String c (s ++ nl ++ save_and_report)).
  rewrite contains_cons, (IH Hlater), orb_false_r.
  destruct (startswith (String c (s ++ nl ++ save_and_report)) "plt.show()")
    eqn:Hsw; [exfalso | reflexivity].
  change (String c (s ++ nl ++ save_and_report))
    with (String c s ++ nl ++ save_and_report) in Hsw.
  destruct (startswith_append_cases _ _ _ Hsw) as [Hin | (q2 & Heq & Hne & Hq2)];
    [rewrite Hin in Hhere; discriminate Hhere |].
  injection Heq as _ Heq. clear Hsw Hhere Hlater IH.
  repeat (destruct s as [|? s];
          [simpl in Heq; subst q2; discriminate Hq2 | injection Heq as _ Heq]).
  destruct s; simpl in Heq; [subst q2; congruence | discriminate Heq].
Qed.

(** Where "plt.show()" occurred, the output of [replace] holds the
    save-and-report text. *)
Lemma replace_puts_save_and_report code :
  contains "plt.show()" code = true ->
  exists u v, replace code "plt.show()" save_and_report = u ++ save_and_report ++ v.
Proof.
  intros Hshow.
  destruct (replace_segments "p" "lt.show()" save_and_report code)
    as (segs & Hjoin & Hrep & Hfree & Hne).
  destruct segs as [|g [|g' segs]]; [congruence | |].
  - simpl in Hjoin. subst g. apply Forall_cons in Hfree as [Hg _].
    rewrite Hg in Hshow. discriminate Hshow.
  - exists g. eexists. rewrite Hrep. reflexivity.
Qed.

Lemma savefig_in_save_and_report v :
  contains "savefig" (save_and_report ++ v) = true.
Proof. reflexivity. Qed.

(** For code that mentions a matplotlib import, the string handed to the
    REPL never contains "plt.show()", whichever branch of the rewriting is
    taken. *)
Theorem executed_code_has_no_show (code : string) :
  mentions_matplotlib code = true ->
  contains "plt.show()" (rewrite_plotting code) = false.
Proof.
  intros Hmpl. unfold rewrite_plotting. rewrite Hmpl.
  destruct (contains "plt.show()" code) eqn:Hshow.
  - apply no_show_after_replace.
  - destruct (contains "plt" code && negb (contains "savefig" code)).
    + apply no_show_after_append. exact Hshow.
    + exact Hshow.
Qed.

(** For code that mentions a matplotlib import and contains "plt", the
    string handed to the REPL always contains a "savefig": one that was
    there, one put in place of "plt.show()", or the appended one. *)
Theorem figure_is_saved (code : string) :
  mentions_matplotlib code = true ->
  contains "plt" code = true ->
  contains "savefig" (rewrite_plotting code) = true.
Proof.
  intros Hmpl Hplt. unfold rewrite_plotting. rewrite Hmpl, Hplt.
  destruct (contains "plt.show()" code) eqn:Hshow.
  - destruct (replace_puts_save_and_report _ Hshow) as (u & v & ->).
    apply contains_append_r, savefig_in_save_and_report.
  - destruct (contains "savefig" code) eqn:Hsave; simpl.
    + exact Hsave.
    + apply contains_append_r. reflexivity.
Qed.

(** Rewriting is idempotent: code that went through the rewriting is left
    unchanged by a second pass. *)
Theorem rewrite_plotting_idempotent (code : string) :
  rewrite_plotting (rewrite_plotting code) = rewrite_plotting code.
Proof.
  assert (Hfix : forall r,
             contains "plt.show()" r = false -> contains "savefig" r = true ->
             rewrite_plotting r = r).
  { intros r Hshow Hsave. unfold rewrite_plotting.
    rewrite Hshow, Hsave, andb_false_r.
    destruct (mentions_matplotlib r); reflexivity. }
  destruct (mentions_matplotlib code) eqn:Hmpl.
  - destruct (contains "plt.show()" code) eqn:Hshow.
    + assert (Hrw : rewrite_plotting code
                    = replace code "plt.show()" save_and_report).
      { unfold rewrite_plotting. rewrite Hmpl, Hshow. reflexivity. }
      rewrite Hrw. apply Hfix; [apply no_show_after_replace |].
      destruct (replace_puts_save_and_report _ Hshow) as (u & v & ->).
      apply contains_append_r, savefig_in_save_and_report.
    + destruct (contains "plt" code && negb (contains "savefig" code)) eqn:Hcond.
      * assert (Hrw : rewrite_plotting code = code ++ nl ++ save_and_report).
        { unfold rewrite_plotting. rewrite Hmpl, Hshow, Hcond. reflexivity. }
        rewrite Hrw. apply Hfix; [exact (no_show_after_append _ Hshow) |].
        apply contains_append_r. reflexivity.
      * assert (Hsame : rewrite_plotting code = code).
        { unfold rewrite_plotting. rewrite Hmpl, Hshow, Hcond. reflexivity. }
        rewrite !Hsame. reflexivity.
  - assert (Hsame : rewrite_plotting code = code).
    { unfold rewrite_plotting. rewrite Hmpl. reflexivity. }
    rewrite !Hsame. reflexivity.
Qed.

End Rewriting.

Lemma executed_code_has_no_show_witness :
  mentions_matplotlib "from matplotlib import pyplot as plt; plt.plot([1, 2])" = true
  /\ contains "plt.show()"
       (rewrite_plotting "from matplotlib import pyplot as plt; plt.plot([1, 2])")
     = false.
Proof.
  split; [reflexivity |].
  exact (executed_code_has_no_show
           "from matplotlib import pyplot as plt; plt.plot([1, 2])" eq_refl).
Defined.

Lemma figure_is_saved_witness :
  mentions_matplotlib "import matplotlib.pyplot as plt; plt.plot([1, 2]); plt.show(); plt.show()"
  = true
  /\ contains "plt"
       "import matplotlib.pyplot as plt; plt.plot([1, 2]); plt.show(); plt.show()" = true
  /\ contains "savefig"
       (rewrite_plotting
          "import matplotlib.pyplot as plt; plt.plot([1, 2]); plt.show(); plt.show()")
     = true.
Proof.
  split; [reflexivity |]. split; [reflexivity |].
  exact (figure_is_saved
           "import matplotlib.pyplot as plt; plt.plot([1, 2]); plt.show(); plt.show()"
           eq_refl eq_refl).
Defined.

(** When the directory of the figures cannot be created, [run_python] does
    not hand the code to the REPL: it returns "Error: " and the message of
    the exception, and its only call is the attempt to create the
    directory. *)
Theorem unwritable_directory_blocks_run `{Externals} (st : State) (code : string)
    (e : Exception) (w : World) :
  os_makedirs artifacts_dir (world st) = (Raise e, w) ->
  run_python code st
  = (Return ("Error: " ++ exc_str e), after st w [EvMakedirs artifacts_dir])
  /\ executed (trace (snd (run_python code st))) = executed (trace st).
Proof.
  intros Hmk.
  pose proof (run_python_of_local _ _ _ _ (MakedirsRaises st code e w Hmk)) as Hrun.
  split; [exact Hrun |]. rewrite Hrun. simpl.
  induction (trace st) as [|ev evs IH]; simpl; [reflexivity |].
  destruct ev; simpl; rewrite ?IH; reflexivity.
Qed.

Lemma unwritable_directory_blocks_run_witness :
  @os_makedirs (Scripted.externals Scripted.read_only_disk) artifacts_dir
    (world (Scripted.started Scripted.read_only_disk))
  = (Raise (Exc "[Errno 30] Read-only file system"), 2)
  /\ run_python "print(42)" (Scripted.started Scripted.read_only_disk)
     = (Return "Error: [Errno 30] Read-only file system",
        after (Scripted.started Scripted.read_only_disk) 2 [EvMakedirs artifacts_dir]).
Proof.
  split; [reflexivity |].
  exact (proj1 (@unwritable_directory_blocks_run
                  (Scripted.externals Scripted.read_only_disk)
                  (Scripted.started Scripted.read_only_disk) "print(42)"
                  (Exc "[Errno 30] Read-only file system") 2 eq_refl)).
Defined.
